(** * Koppen-Geiger climate classification: a shallow embedding

    Source: [koppen_classification/classifier.py], class
    [KoppenClassification].

    Numbers.  The program works on numpy arrays of twelve monthly values and
    rounds every sum, product and quotient to binary64.  It is embedded
    twice.

    In exact arithmetic, first: the arrays are [list Q] (every finite float
    and every integer is a rational), [+], [*], [/] are those of [Q], and the
    float literal [0.7] is [7/10].  This embedding carries the properties
    that are about the order of the tests and about comparisons of the
    statistics of one object with each other and with constants: which input
    is refused, which group wins, which letters can follow.

    On binary64 numbers, second (module [F64]): IEEE 754 binary64 with
    rounding to nearest even, and numpy's order of summation.  This embedding
    carries the properties that depend on the value of an arithmetic result:
    the threshold, the quotients in the letters of the groups A, C and D, the
    sums of the seasons.

    Errors.  The constructor raises [ValueError] on arrays that do not hold
    twelve values; numpy itself raises on an empty reduction and on an index
    out of range.  All three are kept, in a small error monad. *)

From Stdlib Require Import String DecimalString QArith Qminmax ZArith List Bool Lia Lqa
  Permutation SpecFloat.
Import ListNotations.

Local Open Scope Q_scope.

(** ** Python values and operators *)

Inductive exn : Type :=
| ValueError (msg : string)
| IndexError (msg : string).

Definition result (A : Type) : Type := (exn + A)%type.

Definition ret {A : Type} (x : A) : result A := inr x.
Definition raise {A : Type} (e : exn) : result A := inl e.
Definition bind {A B : Type} (c : result A) (k : A -> result B) : result B :=
  match c with
  | inl e => inl e
  | inr x => k x
  end.
Definition fmap {A B : Type} (f : A -> B) (c : result A) : result B :=
  bind c (fun x => ret (f x)).

Notation "x <- c ;; k" := (bind c (fun x => k))
  (at level 61, c at next level, right associativity).

(** Comparisons of two numbers, as Python evaluates them: to a [bool]. *)
Definition Qlt_bool (x y : Q) : bool := (Qnum x * QDen y <? Qnum y * QDen x)%Z.

Declare Scope py_scope.
Delimit Scope py_scope with py.
Notation "x <? y" := (Qlt_bool x y) (at level 70, no associativity) : py_scope.
Notation "x >? y" := (Qlt_bool y x) (at level 70, no associativity) : py_scope.
Notation "x <=? y" := (Qle_bool x y) (at level 70, no associativity) : py_scope.
Notation "x >=? y" := (Qle_bool y x) (at level 70, no associativity) : py_scope.

(** [str(n)] on a non-negative integer *)
Definition str (n : nat) : string := NilEmpty.string_of_uint (Nat.to_uint n).

(** The [IndexError] of numpy for index [i] in an array of [n] values *)
Definition out_of_bounds (i n : nat) : exn :=
  IndexError ("index " ++ str i ++ " is out of bounds for axis 0 with size "
              ++ str n)%string.

(** ** The numpy operations the class uses, on one-dimensional arrays *)

Module np.

(** [a.sum()] *)
Definition sum (a : list Q) : Q := fold_left Qplus a 0.

(** [a.mean()]: the sum over the number of elements *)
Definition mean (a : list Q) : Q := sum a / inject_Z (Z.of_nat (List.length a)).

Definition zero_size (op : string) : exn :=
  ValueError ("zero-size array to reduction operation " ++ op
              ++ " which has no identity")%string.

(** [a.min()]: raises on an empty array *)
Definition min (a : list Q) : result Q :=
  match a with
  | [] => raise (zero_size "minimum")
  | x :: r => ret (fold_left Qmin r x)
  end.

(** [a.max()]: raises on an empty array *)
Definition max (a : list Q) : result Q :=
  match a with
  | [] => raise (zero_size "maximum")
  | x :: r => ret (fold_left Qmax r x)
  end.

(** [a[ind]] for a list [ind] of (non-negative) indices *)
Fixpoint take (a : list Q) (ind : list nat) : result (list Q) :=
  match ind with
  | [] => ret []
  | i :: ind' =>
      match nth_error a i with
      | None => raise (out_of_bounds i (List.length a))
      | Some x => xs <- take a ind' ;; ret (x :: xs)
      end
  end.

(** [a > c], elementwise *)
Definition gt (a : list Q) (c : Q) : list bool :=
  map (fun x => (x >? c)%py) a.

(** [m.astype(int)] on a boolean array *)
Definition astype_int (m : list bool) : list Z :=
  map (fun b : bool => if b then 1%Z else 0%Z) m.

(** [.sum()] on an integer array *)
Definition sum_int (a : list Z) : Z := fold_left Z.add a 0%Z.

End np.

(** ** The class *)

(** [self.mon_ind]: the month indices (0 = January) of each season. *)
Record MonInd : Type := {
  summer : list nat;
  winter : list nat
}.

(** The attributes of [self] set before [calculate_precip_threshold] is
    called (lines 11-30 of the source). *)
Record Basic : Type := {
  precip : list Q;
  temp : list Q;
  south : bool;
  temp_mean : Q;
  prcp_sum : Q;
  prcp_min : Q;
  temp_min : Q;
  temp_max : Q;
  nu_mon_gt10deg : Z;
  mon_sw : list nat * list nat;
  mon_ind : MonInd;
  prcp_summer : list Q;
  prcp_winter : list Q
}.

(** The attributes of [self] when [classify] is called (lines 33-39 add the
    threshold and the seasonal extremes). *)
Record Self : Type := {
  basic :> Basic;
  prcp_threshold : Q;
  prcp_summer_min : Q;
  prcp_summer_max : Q;
  prcp_winter_min : Q;
  prcp_winter_max : Q
}.

(** The finished object: line 42 stores the result of [classify]. *)
Record KoppenClassification : Type := {
  self_ :> Self;
  koppen_class : string
}.

Definition calculate_precip_threshold (self : Basic) : Q :=
  if (np.sum (prcp_winter self) >? (7 # 10) * prcp_sum self)%py then
    20 * temp_mean self
  else if (np.sum (prcp_summer self) >? (7 # 10) * prcp_sum self)%py then
    20 * temp_mean self + 280
  else
    20 * temp_mean self + 140.

Local Open Scope string_scope.

Definition classify (self : Self) : string :=
  if (prcp_sum self <? prcp_threshold self)%py then
    let koppen_class := "B" in
    let koppen_class :=
      koppen_class ++
      (if (prcp_sum self <? prcp_threshold self / 2)%py then "W" else "S") in
    koppen_class ++ (if (temp_mean self >=? 18)%py then "h" else "k")
  else if (temp_min self >=? 18)%py then
    let koppen_class := "A" in
    if (prcp_min self >=? 60)%py then
      koppen_class ++ "f"
    else
      koppen_class ++
      (if (prcp_min self >=? 100 - prcp_sum self / 25)%py then "m" else "w")
  else if (temp_max self >? 10)%py
          && ((0 <? temp_min self)%py && (temp_min self <? 18)%py) then
    let koppen_class := "C" in
    let koppen_class :=
      if (prcp_summer_min self <? 40)%py
         && (prcp_summer_min self <? prcp_winter_max self / 3)%py then
        koppen_class ++ "s"
      else if (prcp_winter_min self <? prcp_summer_max self / 10)%py then
        koppen_class ++ "w"
      else
        koppen_class ++ "f" in
    if (temp_max self >=? 22)%py then
      koppen_class ++ "a"
    else if (nu_mon_gt10deg self >=? 4)%Z then
      koppen_class ++ "b"
    else
      koppen_class ++ "c"
  else if (temp_max self >? 10)%py && (temp_min self <=? 0)%py then
    let koppen_class := "D" in
    let koppen_class :=
      if (prcp_summer_min self <? 40)%py
         && (prcp_summer_min self <? prcp_winter_max self / 3)%py then
        koppen_class ++ "s"
      else if (prcp_winter_min self <? prcp_summer_max self / 10)%py then
        koppen_class ++ "w"
      else
        koppen_class ++ "f" in
    if (temp_max self >=? 22)%py then
      koppen_class ++ "a"
    else if (nu_mon_gt10deg self >=? 4)%Z then
      koppen_class ++ "b"
    else if (temp_min self <? -38)%py then
      koppen_class ++ "d"
    else
      koppen_class ++ "c"
  else if (temp_max self <=? 10)%py then
    let koppen_class := "E" in
    koppen_class ++ (if (temp_max self >? 0)%py then "T" else "F")
  else
    "Unknown".

Definition InvalidInput : exn :=
  ValueError
    "Precipitation and temperature arrays must each contain 12 monthly values.".

(** [KoppenClassification(precip, temp, south)]: lines 5-42. *)
Definition __init__ (precip temp : list Q) (south : bool)
  : result KoppenClassification :=
  if negb (List.length precip =? 12)%nat || negb (List.length temp =? 12)%nat then
    raise InvalidInput
  else
    let temp_mean := np.mean temp in
    let prcp_sum := np.sum precip in
    prcp_min <- np.min precip ;;
    temp_min <- np.min temp ;;
    temp_max <- np.max temp ;;
    let nu_mon_gt10deg := np.sum_int (np.astype_int (np.gt temp 10)) in
    let mon_sw := ([3; 4; 5; 6; 7; 8], [0; 1; 2; 9; 10; 11])%nat in
    let mon_ind :=
      if south then {| summer := snd mon_sw; winter := fst mon_sw |}
      else {| summer := fst mon_sw; winter := snd mon_sw |} in
    prcp_summer <- np.take precip (summer mon_ind) ;;
    prcp_winter <- np.take precip (winter mon_ind) ;;
    let self :=
      {| precip := precip; temp := temp; south := south;
         temp_mean := temp_mean; prcp_sum := prcp_sum; prcp_min := prcp_min;
         temp_min := temp_min; temp_max := temp_max;
         nu_mon_gt10deg := nu_mon_gt10deg;
         mon_sw := mon_sw; mon_ind := mon_ind;
         prcp_summer := prcp_summer; prcp_winter := prcp_winter |} in
    let prcp_threshold := calculate_precip_threshold self in
    prcp_summer_min <- np.min prcp_summer ;;
    prcp_summer_max <- np.max prcp_summer ;;
    prcp_winter_min <- np.min prcp_winter ;;
    prcp_winter_max <- np.max prcp_winter ;;
    let self :=
      {| basic := self; prcp_threshold := prcp_threshold;
         prcp_summer_min := prcp_summer_min;
         prcp_summer_max := prcp_summer_max;
         prcp_winter_min := prcp_winter_min;
         prcp_winter_max := prcp_winter_max |} in
    ret {| self_ := self; koppen_class := classify self |}.

(** [get_classification(writeout=False)] *)
Definition get_classification (self : KoppenClassification) : string :=
  koppen_class self.

(** Construct and read the code: what a caller of the package does. *)
Definition koppen (precip temp : list Q) (south : bool) : result string :=
  fmap get_classification (__init__ precip temp south).

Local Close Scope string_scope.

(** ** The constructor's assignments, as facts *)

(** The facts that tie a finished object to the arrays it was built from:
    one per assignment of [__init__]. *)
Record Derived (p t : list Q) (s : bool) (mi : MonInd)
  (o : KoppenClassification) : Prop := {
  d_len_precip : List.length p = 12%nat;
  d_len_temp : List.length t = 12%nat;
  d_precip : precip o = p;
  d_temp : temp o = t;
  d_south : south o = s;
  d_temp_mean : temp_mean o = np.mean t;
  d_prcp_sum : prcp_sum o = np.sum p;
  d_prcp_min : np.min p = inr (prcp_min o);
  d_temp_min : np.min t = inr (temp_min o);
  d_temp_max : np.max t = inr (temp_max o);
  d_nu_mon_gt10deg :
    nu_mon_gt10deg o = np.sum_int (np.astype_int (np.gt t 10));
  d_mon_sw : mon_sw o = ([3; 4; 5; 6; 7; 8], [0; 1; 2; 9; 10; 11])%nat;
  d_mon_ind : mon_ind o = mi;
  d_prcp_summer : np.take p (summer mi) = inr (prcp_summer o);
  d_prcp_winter : np.take p (winter mi) = inr (prcp_winter o);
  d_prcp_threshold : prcp_threshold o = calculate_precip_threshold o;
  d_prcp_summer_min : np.min (prcp_summer o) = inr (prcp_summer_min o);
  d_prcp_summer_max : np.max (prcp_summer o) = inr (prcp_summer_max o);
  d_prcp_winter_min : np.min (prcp_winter o) = inr (prcp_winter_min o);
  d_prcp_winter_max : np.max (prcp_winter o) = inr (prcp_winter_max o);
  d_koppen_class : koppen_class o = classify o
}.

(** ** The spec's rules, in its own words, to compare the code with *)

(** [x >= y] or [x < y]: the test behind a spec rule "if x >= y, else". *)
Definition Qge_lt_dec (x y : Q) : {x >= y} + {x < y} :=
  match Qlt_le_dec x y with
  | left H => right H
  | right H => left H
  end.

(** The spec's sub-letters of Group B, in the spec's words: "W" if
    [precipSum < threshold/2], else "S"; "h" if [tempMean >= 18], else "k". *)
Definition spec_arid_letter (precipSum threshold : Q) : string :=
  if Qlt_le_dec precipSum (threshold / 2) then "W"%string else "S"%string.

Definition spec_arid_heat_letter (tempMean : Q) : string :=
  if Qge_lt_dec tempMean 18 then "h"%string else "k"%string.

(** The number of months whose temperature is strictly greater than 10. *)
Definition spec_months_above_10 (t : list Q) : nat :=
  List.length (filter (fun x => if Qlt_le_dec 10 x then true else false) t).

(** Line 26 on its own: the season table as a function of the flag. *)
Definition select_mon_ind (south : bool) : MonInd :=
  if south then
    {| summer := [0; 1; 2; 9; 10; 11]%nat; winter := [3; 4; 5; 6; 7; 8]%nat |}
  else
    {| summer := [3; 4; 5; 6; 7; 8]%nat; winter := [0; 1; 2; 9; 10; 11]%nat |}.

(** The constructor with the season table [self.mon_ind] given instead of
    chosen on line 26: what "classifying with these months as summer and
    those as winter" means.  The other lines are those of [__init__]. *)
Definition init_seasons (precip temp : list Q) (south : bool) (mon_ind : MonInd)
  : result KoppenClassification :=
  if negb (List.length precip =? 12)%nat || negb (List.length temp =? 12)%nat then
    raise InvalidInput
  else
    let temp_mean := np.mean temp in
    let prcp_sum := np.sum precip in
    prcp_min <- np.min precip ;;
    temp_min <- np.min temp ;;
    temp_max <- np.max temp ;;
    let nu_mon_gt10deg := np.sum_int (np.astype_int (np.gt temp 10)) in
    let mon_sw := ([3; 4; 5; 6; 7; 8], [0; 1; 2; 9; 10; 11])%nat in
    prcp_summer <- np.take precip (summer mon_ind) ;;
    prcp_winter <- np.take precip (winter mon_ind) ;;
    let self :=
      {| precip := precip; temp := temp; south := south;
         temp_mean := temp_mean; prcp_sum := prcp_sum; prcp_min := prcp_min;
         temp_min := temp_min; temp_max := temp_max;
         nu_mon_gt10deg := nu_mon_gt10deg;
         mon_sw := mon_sw; mon_ind := mon_ind;
         prcp_summer := prcp_summer; prcp_winter := prcp_winter |} in
    let prcp_threshold := calculate_precip_threshold self in
    prcp_summer_min <- np.min prcp_summer ;;
    prcp_summer_max <- np.max prcp_summer ;;
    prcp_winter_min <- np.min prcp_winter ;;
    prcp_winter_max <- np.max prcp_winter ;;
    let self :=
      {| basic := self; prcp_threshold := prcp_threshold;
         prcp_summer_min := prcp_summer_min;
         prcp_summer_max := prcp_summer_max;
         prcp_winter_min := prcp_winter_min;
         prcp_winter_max := prcp_winter_max |} in
    ret {| self_ := self; koppen_class := classify self |}.

(** The season table with the roles of summer and winter exchanged. *)
Definition swap_seasons (mi : MonInd) : MonInd :=
  {| summer := winter mi; winter := summer mi |}.

(** ** Auxiliary notions for the further properties *)


(** The sub-letter of Group E as [classify] chooses it (line 150). *)
Definition polar_letter (tempMax : Q) : string :=
  if Qlt_le_dec 0 tempMax then "T"%string else "F"%string.



(** ** The program on binary64 numbers

    The definitions so far compute with exact rationals.  That is what the
    order-theoretic properties need, but it is not how the program runs:
    numpy rounds every sum, product and quotient to binary64.  Where a
    property depends on the value of an arithmetic result, the program is
    embedded a second time, on IEEE 754 binary64 numbers (the Standard
    Library's [SpecFloat], round to nearest even), with numpy's order of
    summation.  An integer input array is read as the array of the same
    values in binary64; numpy gives the same statistics for both as long as
    the sums stay below 2^53. *)

Module F64.

Definition float : Type := spec_float.

Definition prec : Z := 53.
Definition emax : Z := 1024.

(** A Python [int] literal, or an integer input value, as a binary64. *)
Definition int (z : Z) : float := binary_normalize prec emax z 0 false.

Definition add : float -> float -> float := SFadd prec emax.
Definition sub : float -> float -> float := SFsub prec emax.
Definition mul : float -> float -> float := SFmul prec emax.
Definition div : float -> float -> float := SFdiv prec emax.

(** A decimal literal [n / 10^k], such as [0.7]: the binary64 nearest to it,
    obtained as the correctly rounded quotient of the two integers. *)
Definition unrounded (z : Z) : float :=
  match z with
  | Z0 => S754_zero false
  | Zpos p => S754_finite false p 0
  | Zneg p => S754_finite true p 0
  end.
Definition dec (n : Z) (k : nat) : float :=
  div (unrounded n) (unrounded (10 ^ Z.of_nat k)).

Definition zero : float := S754_zero false.

Definition is_nan (x : float) : bool :=
  match x with
  | S754_nan => true
  | _ => false
  end.

Declare Scope f64_scope.
Delimit Scope f64_scope with f64.
Notation "x <? y" := (SFltb x y) (at level 70, no associativity) : f64_scope.
Notation "x >? y" := (SFltb y x) (at level 70, no associativity) : f64_scope.
Notation "x <=? y" := (SFleb x y) (at level 70, no associativity) : f64_scope.
Notation "x >=? y" := (SFleb y x) (at level 70, no associativity) : f64_scope.
Notation "x + y" := (add x y) : f64_scope.
Notation "x - y" := (sub x y) : f64_scope.
Notation "x * y" := (mul x y) : f64_scope.
Notation "x / y" := (div x y) : f64_scope.

(** The order as propositions: [lt x y] is what the test [x < y] of the
    program finds true.  Every comparison with a NaN is false. *)
Definition lt (x y : float) : Prop := SFltb x y = true.
Definition le (x y : float) : Prop := SFleb x y = true.
Definition num_eq (x y : float) : Prop := SFeqb x y = true.

Definition lt_dec (x y : float) : {lt x y} + {~ lt x y} :=
  bool_dec (SFltb x y) true.
Definition ge_dec (x y : float) : {le y x} + {~ le y x} :=
  bool_dec (SFleb y x) true.

Module np.

Definition zero_size (op : string) : exn :=
  ValueError ("zero-size array to reduction operation " ++ op
              ++ " which has no identity")%string.

(** [r[j] += a[i + j]] for the eight accumulators of a block *)
Fixpoint add_block (r a : list float) : list float :=
  match r, a with
  | x :: r', y :: a' => add x y :: add_block r' a'
  | _, _ => r
  end.

Fixpoint accumulate (blocks : nat) (r a : list float)
  : list float * list float :=
  match blocks with
  | O => (r, a)
  | S k => accumulate k (add_block r (firstn 8 a)) (skipn 8 a)
  end.

(** numpy's [pairwise_sum] on a block of 8 to 128 values: eight running sums
    over the full groups of eight, combined as a tree, then the remaining
    values one by one. *)
Definition block_sum (a : list float) : float :=
  let '(r, rest) :=
    accumulate (List.length a / 8 - 1) (firstn 8 a) (skipn 8 a) in
  match r with
  | [r0; r1; r2; r3; r4; r5; r6; r7] =>
      fold_left add rest
        (add (add (add r0 r1) (add r2 r3)) (add (add r4 r5) (add r6 r7)))
  | _ => zero
  end.

(** numpy's [pairwise_sum]: fewer than 8 values are added one by one, up to
    128 by [block_sum], more by halves.  [fuel] bounds the halving; the
    length of the array is enough. *)
Fixpoint pairwise_sum (fuel : nat) (a : list float) : float :=
  let n := List.length a in
  if (n <? 8)%nat then fold_left add a zero
  else if (n <=? 128)%nat then block_sum a
  else
    match fuel with
    | O => zero
    | S fuel' =>
        let n2 := (n / 2)%nat in
        let n2 := (n2 - n2 mod 8)%nat in
        add (pairwise_sum fuel' (firstn n2 a)) (pairwise_sum fuel' (skipn n2 a))
    end.

(** [a.sum()]: the reduction starts from the identity 0. *)
Definition sum (a : list float) : float :=
  add zero (pairwise_sum (List.length a) a).

(** [a.mean()]: the sum over the number of elements *)
Definition mean (a : list float) : float :=
  div (sum a) (int (Z.of_nat (List.length a))).

(** [np.minimum] and [np.maximum] on two numbers: a NaN wins. *)
Definition minimum (x y : float) : float :=
  if is_nan x then x else if (x <? y)%f64 then x else y.
Definition maximum (x y : float) : float :=
  if is_nan x then x else if (x >? y)%f64 then x else y.

(** [a.min()]: raises on an empty array *)
Definition min (a : list float) : result float :=
  match a with
  | [] => raise (zero_size "minimum")
  | x :: r => ret (fold_left minimum r x)
  end.

(** [a.max()]: raises on an empty array *)
Definition max (a : list float) : result float :=
  match a with
  | [] => raise (zero_size "maximum")
  | x :: r => ret (fold_left maximum r x)
  end.

(** [a[ind]] for a list [ind] of (non-negative) indices *)
Fixpoint take (a : list float) (ind : list nat) : result (list float) :=
  match ind with
  | [] => ret []
  | i :: ind' =>
      match nth_error a i with
      | None => raise (out_of_bounds i (List.length a))
      | Some x => xs <- take a ind' ;; ret (x :: xs)
      end
  end.

(** [a > c], elementwise *)
Definition gt (a : list float) (c : float) : list bool :=
  map (fun x => (x >? c)%f64) a.

(** [m.astype(int)] on a boolean array *)
Definition astype_int (m : list bool) : list Z :=
  map (fun b : bool => if b then 1%Z else 0%Z) m.

(** [.sum()] on an integer array *)
Definition sum_int (a : list Z) : Z := fold_left Z.add a 0%Z.

End np.

(** The attributes of [self], in the three stages of the constructor. *)
Record Basic : Type := {
  precip : list float;
  temp : list float;
  south : bool;
  temp_mean : float;
  prcp_sum : float;
  prcp_min : float;
  temp_min : float;
  temp_max : float;
  nu_mon_gt10deg : Z;
  mon_sw : list nat * list nat;
  mon_ind : MonInd;
  prcp_summer : list float;
  prcp_winter : list float
}.

Record Self : Type := {
  basic :> Basic;
  prcp_threshold : float;
  prcp_summer_min : float;
  prcp_summer_max : float;
  prcp_winter_min : float;
  prcp_winter_max : float
}.

Record KoppenClassification : Type := {
  self_ :> Self;
  koppen_class : string
}.

Definition calculate_precip_threshold (self : Basic) : float :=
  if (np.sum (prcp_winter self) >? dec 7 1 * prcp_sum self)%f64 then
    (int 20 * temp_mean self)%f64
  else if (np.sum (prcp_summer self) >? dec 7 1 * prcp_sum self)%f64 then
    (int 20 * temp_mean self + int 280)%f64
  else
    (int 20 * temp_mean self + int 140)%f64.

Local Open Scope string_scope.

Definition classify (self : Self) : string :=
  if (prcp_sum self <? prcp_threshold self)%f64 then
    let koppen_class := "B" in
    let koppen_class :=
      koppen_class ++
      (if (prcp_sum self <? prcp_threshold self / int 2)%f64
       then "W" else "S") in
    koppen_class ++ (if (temp_mean self >=? int 18)%f64 then "h" else "k")
  else if (temp_min self >=? int 18)%f64 then
    let koppen_class := "A" in
    if (prcp_min self >=? int 60)%f64 then
      koppen_class ++ "f"
    else
      koppen_class ++
      (if (prcp_min self >=? int 100 - prcp_sum self / int 25)%f64
       then "m" else "w")
  else if (temp_max self >? int 10)%f64
          && ((int 0 <? temp_min self)%f64 && (temp_min self <? int 18)%f64)
  then
    let koppen_class := "C" in
    let koppen_class :=
      if (prcp_summer_min self <? int 40)%f64
         && (prcp_summer_min self <? prcp_winter_max self / int 3)%f64 then
        koppen_class ++ "s"
      else if (prcp_winter_min self <? prcp_summer_max self / int 10)%f64 then
        koppen_class ++ "w"
      else
        koppen_class ++ "f" in
    if (temp_max self >=? int 22)%f64 then
      koppen_class ++ "a"
    else if (nu_mon_gt10deg self >=? 4)%Z then
      koppen_class ++ "b"
    else
      koppen_class ++ "c"
  else if (temp_max self >? int 10)%f64 && (temp_min self <=? int 0)%f64 then
    let koppen_class := "D" in
    let koppen_class :=
      if (prcp_summer_min self <? int 40)%f64
         && (prcp_summer_min self <? prcp_winter_max self / int 3)%f64 then
        koppen_class ++ "s"
      else if (prcp_winter_min self <? prcp_summer_max self / int 10)%f64 then
        koppen_class ++ "w"
      else
        koppen_class ++ "f" in
    if (temp_max self >=? int 22)%f64 then
      koppen_class ++ "a"
    else if (nu_mon_gt10deg self >=? 4)%Z then
      koppen_class ++ "b"
    else if (temp_min self <? int (-38))%f64 then
      koppen_class ++ "d"
    else
      koppen_class ++ "c"
  else if (temp_max self <=? int 10)%f64 then
    let koppen_class := "E" in
    koppen_class ++ (if (temp_max self >? int 0)%f64 then "T" else "F")
  else
    "Unknown".

(** [KoppenClassification(precip, temp, south)]: lines 5-42. *)
Definition __init__ (precip temp : list float) (south : bool)
  : result KoppenClassification :=
  if negb (List.length precip =? 12)%nat || negb (List.length temp =? 12)%nat then
    raise InvalidInput
  else
    let temp_mean := np.mean temp in
    let prcp_sum := np.sum precip in
    prcp_min <- np.min precip ;;
    temp_min <- np.min temp ;;
    temp_max <- np.max temp ;;
    let nu_mon_gt10deg :=
      np.sum_int (np.astype_int (np.gt temp (int 10))) in
    let mon_sw := ([3; 4; 5; 6; 7; 8], [0; 1; 2; 9; 10; 11])%nat in
    let mon_ind :=
      if south then {| summer := snd mon_sw; winter := fst mon_sw |}
      else {| summer := fst mon_sw; winter := snd mon_sw |} in
    prcp_summer <- np.take precip (summer mon_ind) ;;
    prcp_winter <- np.take precip (winter mon_ind) ;;
    let self :=
      {| precip := precip; temp := temp; south := south;
         temp_mean := temp_mean; prcp_sum := prcp_sum; prcp_min := prcp_min;
         temp_min := temp_min; temp_max := temp_max;
         nu_mon_gt10deg := nu_mon_gt10deg;
         mon_sw := mon_sw; mon_ind := mon_ind;
         prcp_summer := prcp_summer; prcp_winter := prcp_winter |} in
    let prcp_threshold := calculate_precip_threshold self in
    prcp_summer_min <- np.min prcp_summer ;;
    prcp_summer_max <- np.max prcp_summer ;;
    prcp_winter_min <- np.min prcp_winter ;;
    prcp_winter_max <- np.max prcp_winter ;;
    let self :=
      {| basic := self; prcp_threshold := prcp_threshold;
         prcp_summer_min := prcp_summer_min;
         prcp_summer_max := prcp_summer_max;
         prcp_winter_min := prcp_winter_min;
         prcp_winter_max := prcp_winter_max |} in
    ret {| self_ := self; koppen_class := classify self |}.

Local Close Scope string_scope.

(** [get_classification(writeout=False)] *)
Definition get_classification (self : KoppenClassification) : string :=
  koppen_class self.

(** Construct and read the code: what a caller of the package does. *)
Definition koppen (precip temp : list float) (south : bool) : result string :=
  fmap get_classification (__init__ precip temp south).

(** The facts that tie a finished object to the arrays it was built from:
    one per assignment of [__init__]. *)
Record Derived (p t : list float) (s : bool)
  (o : KoppenClassification) : Prop := {
  d_len_precip : List.length p = 12%nat;
  d_len_temp : List.length t = 12%nat;
  d_precip : precip o = p;
  d_temp : temp o = t;
  d_south : south o = s;
  d_temp_mean : temp_mean o = np.mean t;
  d_prcp_sum : prcp_sum o = np.sum p;
  d_prcp_min : np.min p = inr (prcp_min o);
  d_temp_min : np.min t = inr (temp_min o);
  d_temp_max : np.max t = inr (temp_max o);
  d_nu_mon_gt10deg :
    nu_mon_gt10deg o = np.sum_int (np.astype_int (np.gt t (int 10)));
  d_mon_sw : mon_sw o = ([3; 4; 5; 6; 7; 8], [0; 1; 2; 9; 10; 11])%nat;
  d_mon_ind : mon_ind o = select_mon_ind s;
  d_prcp_summer :
    np.take p (summer (select_mon_ind s)) = inr (prcp_summer o);
  d_prcp_winter :
    np.take p (winter (select_mon_ind s)) = inr (prcp_winter o);
  d_prcp_threshold : prcp_threshold o = calculate_precip_threshold o;
  d_prcp_summer_min : np.min (prcp_summer o) = inr (prcp_summer_min o);
  d_prcp_summer_max : np.max (prcp_summer o) = inr (prcp_summer_max o);
  d_prcp_winter_min : np.min (prcp_winter o) = inr (prcp_winter_min o);
  d_prcp_winter_max : np.max (prcp_winter o) = inr (prcp_winter_max o);
  d_koppen_class : koppen_class o = classify o
}.

(** The spec's letters, in its own words, on binary64 numbers.  Dry season:
    "s" if [precipSummerMin < 40] and [precipSummerMin < precipWinterMax/3];
    else "w" if [precipWinterMin < precipSummerMax/10]; else "f". *)
Definition spec_dry_letter (summerMin summerMax winterMin winterMax : float)
  : string :=
  match lt_dec summerMin (int 40),
        lt_dec summerMin (winterMax / int 3)%f64 with
  | left _, left _ => "s"%string
  | _, _ =>
      if lt_dec winterMin (summerMax / int 10)%f64 then "w"%string
      else "f"%string
  end.

(** Summer heat: "a" if [tempMax >= 22]; else "b" if
    [monthsAbove10C >= 4]; else "c". *)
Definition spec_heat_letter (tempMax : float) (monthsAbove10C : nat) : string :=
  if ge_dec tempMax (int 22) then "a"%string
  else if le_dec 4 monthsAbove10C then "b"%string
  else "c"%string.

(** The number of months whose temperature is strictly greater than 10. *)
Definition spec_months_above_10 (t : list float) : nat :=
  List.length (filter (fun x => if lt_dec (int 10) x then true else false) t).

(** The sub-letter of Group A as [classify] chooses it (lines 90-94). *)
Definition tropical_letter (precipMin precipSum : float) : string :=
  if ge_dec precipMin (int 60) then "f"%string
  else if ge_dec precipMin (int 100 - precipSum / int 25)%f64 then "m"%string
  else "w"%string.

(** The last letter of Group D as [classify] chooses it (lines 134-141). *)
Definition continental_letter (tempMax tempMin : float) (monthsAbove10C : nat)
  : string :=
  if ge_dec tempMax (int 22) then "a"%string
  else if le_dec 4 monthsAbove10C then "b"%string
  else if lt_dec tempMin (int (-38)) then "d"%string
  else "c"%string.

(** Numbers the tests of the program cannot tell apart: the same number, or
    two zeros of any sign. *)
Definition same (x y : float) : Prop :=
  x = y \/ exists s s', x = S754_zero s /\ y = S754_zero s'.

(** A place on the number line for every number that is not NaN: the sign
    class, then the exponent and the mantissa (mirrored for negatives). *)
Definition place (x : float) : Z * Z * Z :=
  match x with
  | S754_zero _ => (0, 0, 0)
  | S754_infinity s => (if s then -2 else 2, 0, 0)
  | S754_nan => (0, 0, 0)
  | S754_finite s m e =>
      if s then (-1, - e, - Zpos m) else (1, e, Zpos m)
  end%Z.

Definition place_le (a b : Z * Z * Z) : Prop :=
  let '(a1, a2, a3) := a in
  let '(b1, b2, b3) := b in
  (a1 < b1 \/ (a1 = b1 /\ (a2 < b2 \/ (a2 = b2 /\ a3 <= b3))))%Z.

(** [summary()], lines 158-175: a dictionary literal, here the list of its
    items in insertion order. *)
Inductive number : Type :=
| Float (x : float)
| Int (n : Z).

Definition summary (self : Self) : list (string * number) :=
  [ ("mean temperature", Float (temp_mean self));
    ("max temperature", Float (temp_max self));
    ("min temperature", Float (temp_min self));
    ("num of months hotter than 10 deg", Int (nu_mon_gt10deg self));
    ("precip threshold", Float (prcp_threshold self));
    ("minimum summer precip", Float (prcp_summer_min self));
    ("maximum summer precip", Float (prcp_summer_max self));
    ("minimum winter rain", Float (prcp_winter_min self));
    ("maximum winter rain", Float (prcp_winter_max self));
    ("annual accum rain", Float (prcp_sum self));
    ("minimum monthly rain", Float (prcp_min self)) ]%string.

(** [d[key]] on such a dictionary. *)
Fixpoint dict_get (d : list (string * number)) (key : string) : option number :=
  match d with
  | [] => None
  | (k, v) :: d' => if String.eqb k key then Some v else dict_get d' key
  end.

(** [==] on two values of the dictionary, as Python compares numbers. *)
Definition number_eqb (a b : number) : bool :=
  match a, b with
  | Float x, Float y => SFeqb x y
  | Int m, Int n => Z.eqb m n
  | _, _ => false
  end.

(** Two dictionaries hold numerically equal values under a key. *)
Definition same_value (d1 d2 : list (string * number)) (key : string) : Prop :=
  match dict_get d1 key, dict_get d2 key with
  | Some a, Some b => number_eqb a b = true
  | None, None => True
  | _, _ => False
  end.

(** [get_classification(writeout)], lines 177-185: the code alone, or the
    pair of the code and the summary. *)
Definition get_classification_writeout (self : KoppenClassification)
  (writeout : bool) : string + string * list (string * number) :=
  if writeout then inr (koppen_class self, summary self)
  else inl (koppen_class self).

End F64.

(** ** The scenarios of the test script and of the spec *)

Example scenario1 :
  koppen (repeat 250 12) (repeat 25 12) false = inr "Af"%string.
Proof. vm_compute. reflexivity. Qed.

Example scenario2 :
  koppen (repeat 5 12) (repeat 5 12) false = inr "BWk"%string.
Proof. vm_compute. reflexivity. Qed.

Example scenario3 :
  koppen [30; 40; 20; 60; 80; 100; 150; 140; 90; 70; 50; 40]
         [10; 12; 15; 18; 20; 25; 30; 28; 22; 15; 12; 8] false = inr "Cfa"%string.
Proof. vm_compute. reflexivity. Qed.

Example scenario3_south :
  koppen [30; 40; 20; 60; 80; 100; 150; 140; 90; 70; 50; 40]
         [10; 12; 15; 18; 20; 25; 30; 28; 22; 15; 12; 8] true = inr "Csa"%string.
Proof. vm_compute. reflexivity. Qed.

Example scenario4 :
  koppen (repeat 1 11) (repeat 1 11) false = inl InvalidInput.
Proof. reflexivity. Qed.

Example scenario5_dry :
  koppen (repeat 0 12) (repeat (-10) 12) false = inr "EF"%string.
Proof. vm_compute. reflexivity. Qed.

(** ** Comparisons: from the booleans of the code to the order of [Q] *)

Lemma Qlt_bool_iff (x y : Q) : Qlt_bool x y = true <-> x < y.
Proof. unfold Qlt_bool, Qlt. apply Z.ltb_lt. Qed.

Lemma Qlt_bool_false (x y : Q) : Qlt_bool x y = false <-> y <= x.
Proof. unfold Qlt_bool, Qle. apply Z.ltb_ge. Qed.

Lemma Qle_bool_false (x y : Q) : Qle_bool x y = false <-> y < x.
Proof. unfold Qle_bool, Qlt. apply Z.leb_gt. Qed.

Ltac py_props :=
  repeat match goal with
    | H : Qlt_bool _ _ = true |- _ => apply Qlt_bool_iff in H
    | H : Qlt_bool _ _ = false |- _ => apply Qlt_bool_false in H
    | H : Qle_bool _ _ = true |- _ => apply Qle_bool_iff in H
    | H : Qle_bool _ _ = false |- _ => apply Qle_bool_false in H
    | H : andb _ _ = true |- _ => apply andb_true_iff in H; destruct H
    | H : andb _ _ = false |- _ => apply andb_false_iff in H; destruct H
    end.

Ltac case_if :=
  match goal with
  | |- context [if ?c then _ else _] => destruct c eqn:?
  end.

(** ** What the constructor computes *)

Lemma bind_inr {A B : Type} (c : result A) (k : A -> result B) (y : B) :
  bind c k = inr y -> exists x, c = inr x /\ k x = inr y.
Proof.
  destruct c as [e | x]; simpl; intros H; [discriminate | eauto].
Qed.

Lemma init_table (p t : list Q) (s : bool) :
  __init__ p t s = init_seasons p t s (select_mon_ind s).
Proof. unfold __init__, init_seasons. destruct s; reflexivity. Qed.

Lemma init_seasons_inr p t s mi o :
  init_seasons p t s mi = inr o -> Derived p t s mi o.
Proof.
  unfold init_seasons.
  destruct (negb (List.length p =? 12)%nat || negb (List.length t =? 12)%nat)
    eqn:Hlen; [discriminate |].
  apply orb_false_iff in Hlen. destruct Hlen as [Hp Ht].
  apply negb_false_iff, Nat.eqb_eq in Hp.
  apply negb_false_iff, Nat.eqb_eq in Ht.
  intros H.
  repeat (apply bind_inr in H; destruct H as [? [? H]]).
  injection H as <-.
  constructor; simpl; auto.
Qed.

Lemma take_inr (a : list Q) (ind : list nat) :
  Forall (fun i => (i < List.length a)%nat) ind ->
  exists xs, np.take a ind = inr xs /\ List.length xs = List.length ind.
Proof.
  induction 1 as [| i ind Hi _ [xs [IH Hl]]]; simpl.
  - exists []. split; reflexivity.
  - apply nth_error_Some in Hi.
    destruct (nth_error a i) as [x |]; [| congruence].
    rewrite IH. exists (x :: xs). split; [reflexivity | simpl; congruence].
Qed.

Lemma min_inr (a : list Q) :
  (0 < List.length a)%nat -> exists m, np.min a = inr m.
Proof. destruct a; simpl; [lia | eauto]. Qed.

Lemma max_inr (a : list Q) :
  (0 < List.length a)%nat -> exists m, np.max a = inr m.
Proof. destruct a; simpl; [lia | eauto]. Qed.

Lemma select_mon_ind_bounds (s : bool) (n : nat) :
  n = 12%nat ->
  Forall (fun i => (i < n)%nat) (summer (select_mon_ind s))
  /\ Forall (fun i => (i < n)%nat) (winter (select_mon_ind s))
  /\ List.length (summer (select_mon_ind s)) = 6%nat
  /\ List.length (winter (select_mon_ind s)) = 6%nat.
Proof.
  intros ->. destruct s; simpl; repeat split; repeat constructor.
Qed.

(** On twelve-month arrays the constructor returns an object. *)
Lemma init_total (p t : list Q) (s : bool) :
  List.length p = 12%nat -> List.length t = 12%nat ->
  exists o, __init__ p t s = inr o /\ Derived p t s (select_mon_ind s) o.
Proof.
  intros Hp Ht.
  assert (exists o, __init__ p t s = inr o) as [o Ho].
  { rewrite init_table. unfold init_seasons. rewrite Hp, Ht. simpl orb. cbv iota.
    destruct (select_mon_ind_bounds s _ Hp) as (Hs & Hw & Ls & Lw).
    destruct (min_inr p) as [? ->]; [lia |].
    destruct (min_inr t) as [? ->]; [lia |].
    destruct (max_inr t) as [? ->]; [lia |].
    destruct (take_inr _ _ Hs) as [ps [-> Lps]].
    destruct (take_inr _ _ Hw) as [pw [-> Lpw]].
    unfold bind at 1 2 3 4 5.
    destruct (min_inr ps) as [? ->]; [lia |].
    destruct (max_inr ps) as [? ->]; [lia |].
    destruct (min_inr pw) as [? ->]; [lia |].
    destruct (max_inr pw) as [? ->]; [lia |].
    simpl. eauto. }
  exists o. split; [exact Ho |].
  apply init_seasons_inr. rewrite <- init_table. exact Ho.
Qed.

Lemma init_bad_shape (p t : list Q) (s : bool) :
  List.length p <> 12%nat \/ List.length t <> 12%nat ->
  __init__ p t s = inl InvalidInput.
Proof.
  intros H. rewrite init_table. unfold init_seasons.
  destruct (Nat.eqb_spec (List.length p) 12);
    destruct (Nat.eqb_spec (List.length t) 12); simpl; try reflexivity.
  destruct H; contradiction.
Qed.

(** ** The decision tree, branch by branch *)

Lemma classify_B (self : Self) :
  prcp_sum self < prcp_threshold self ->
  classify self
  = ("B" ++ spec_arid_letter (prcp_sum self) (prcp_threshold self)
         ++ spec_arid_heat_letter (temp_mean self))%string.
Proof.
  intros H. unfold classify, spec_arid_letter, spec_arid_heat_letter.
  apply Qlt_bool_iff in H. rewrite H.
  destruct (Qlt_le_dec (prcp_sum self) (prcp_threshold self / 2)) as [L | L];
    destruct (Qge_lt_dec (temp_mean self) 18) as [M | M];
    repeat case_if; py_props; try reflexivity; exfalso; lra.
Qed.

Lemma classify_not_Unknown (self : Self) : classify self <> "Unknown"%string.
Proof.
  unfold classify.
  repeat case_if; simpl; try discriminate.
  py_props; lra.
Qed.

Lemma koppen_inr (p t : list Q) (s : bool) (o : KoppenClassification) :
  __init__ p t s = inr o -> koppen p t s = inr (koppen_class o).
Proof. unfold koppen. intros ->. reflexivity. Qed.

Ltac q_decide := vm_compute; first [reflexivity | discriminate].

(** * The claims *)

(** ** Input shape *)

(** C5. When the precipitation or the temperature array does not hold exactly
    twelve values, the constructor raises the [ValueError] of line 8
    (the spec's InvalidInput) and no code is returned; when both hold twelve
    values, nothing is raised, whatever the values: an object is built and a
    code is returned. *)
Theorem C5_input_shape (p t : list Q) (s : bool) :
  (List.length p <> 12%nat \/ List.length t <> 12%nat ->
   __init__ p t s = inl InvalidInput
   /\ koppen p t s = inl InvalidInput
   /\ forall code, koppen p t s <> inr code)
  /\ (List.length p = 12%nat -> List.length t = 12%nat ->
      exists o, __init__ p t s = inr o
                /\ koppen p t s = inr (koppen_class o)).
Proof.
  split.
  - intros H. apply (init_bad_shape p t s) in H.
    unfold koppen. rewrite H. simpl. repeat split. intros code. discriminate.
  - intros Hp Ht. destruct (init_total p t s Hp Ht) as [o [Ho _]].
    exists o. split; [exact Ho | apply koppen_inr; exact Ho].
Qed.

Lemma C5_input_shape_witness :
  koppen [] [] false = inl InvalidInput
  /\ koppen (repeat 1 11) (repeat 1 11) false = inl InvalidInput
  /\ koppen (repeat 1 12) (repeat 1 13) true = inl InvalidInput
  /\ exists o, __init__ (repeat (-5) 12) (repeat 1000 12) true = inr o.
Proof.
  split; [| split; [| split]].
  - apply (proj1 (C5_input_shape [] [] false)). left. simpl. lia.
  - apply (proj1 (C5_input_shape (repeat 1 11) (repeat 1 11) false)).
    left. simpl. lia.
  - apply (proj1 (C5_input_shape (repeat 1 12) (repeat 1 13) true)).
    right. simpl. lia.
  - destruct (proj2 (C5_input_shape (repeat (-5) 12) (repeat 1000 12) true)
                eq_refl eq_refl) as [o [Ho _]].
    exists o. exact Ho.
Defined.

(** ** The fallback branch *)

(** C3. On twelve-month arrays of (rational) numbers a code is returned and it
    is never "Unknown": the conditions of the groups B, A, C, D, E cover every
    pair of a warmest-month and a coldest-month temperature. *)
Theorem C3_never_unknown (p t : list Q) (s : bool) :
  List.length p = 12%nat -> List.length t = 12%nat ->
  exists code, koppen p t s = inr code /\ code <> "Unknown"%string.
Proof.
  intros Hp Ht. destruct (init_total p t s Hp Ht) as [o [Ho D]].
  exists (koppen_class o). split; [apply koppen_inr; exact Ho |].
  rewrite (d_koppen_class _ _ _ _ _ D). apply classify_not_Unknown.
Qed.

Lemma C3_never_unknown_witness :
  List.length (repeat 0 12) = 12%nat
  /\ List.length (repeat 10 12) = 12%nat
  /\ exists code, koppen (repeat 0 12) (repeat 10 12) false = inr code
                  /\ code <> "Unknown"%string.
Proof.
  split; [reflexivity | split; [reflexivity |]].
  apply (C3_never_unknown (repeat 0 12) (repeat 10 12) false);
    reflexivity.
Defined.

(** ** Group B *)

(** C1. On twelve-month arrays an object is built, and when its statistics
    satisfy both the Group B condition ([prcp_sum < prcp_threshold]) and the
    Group A condition ([temp_min >= 18]) the code starts with "B" and does not
    start with "A". *)
Theorem C1_arid_before_tropical (p t : list Q) (s : bool) :
  List.length p = 12%nat -> List.length t = 12%nat ->
  exists o, __init__ p t s = inr o
    /\ (prcp_sum o < prcp_threshold o -> 18 <= temp_min o ->
        prefix "B" (get_classification o) = true
        /\ prefix "A" (get_classification o) = false).
Proof.
  intros Hp Ht. destruct (init_total p t s Hp Ht) as [o [Ho D]].
  exists o. split; [exact Ho |]. intros HB _.
  unfold get_classification.
  rewrite (d_koppen_class _ _ _ _ _ D), (classify_B o HB).
  unfold spec_arid_letter, spec_arid_heat_letter.
  destruct (Qlt_le_dec (prcp_sum o) (prcp_threshold o / 2));
    destruct (Qge_lt_dec (temp_mean o) 18); split; reflexivity.
Qed.

Lemma C1_arid_before_tropical_witness :
  exists o, __init__ (repeat 5 12) (repeat 25 12) false = inr o
    /\ prcp_sum o < prcp_threshold o
    /\ 18 <= temp_min o
    /\ get_classification o = "BWh"%string
    /\ prefix "B" (get_classification o) = true
    /\ prefix "A" (get_classification o) = false.
Proof.
  destruct (C1_arid_before_tropical (repeat 5 12) (repeat 25 12) false
              eq_refl eq_refl) as [o [E H]].
  exists o. split; [exact E |].
  assert (prcp_sum o < prcp_threshold o) as HB.
  { vm_compute in E. injection E as <-. q_decide. }
  assert (18 <= temp_min o) as HA.
  { vm_compute in E. injection E as <-. q_decide. }
  split; [exact HB | split; [exact HA | split; [| exact (H HB HA)]]].
  vm_compute in E. injection E as <-. reflexivity.
Defined.

(** C8. On twelve-month arrays an object is built, and when
    [prcp_sum < prcp_threshold] its code has exactly three characters: "B",
    then "W" if [prcp_sum < prcp_threshold / 2] else "S", then "h" if
    [temp_mean >= 18] else "k".  For precip = [5]*12, temp = [5]*12, north:
    the threshold is 240, [prcp_sum] is 60 (below 240 and below 120),
    [temp_mean] is 5, and the code is "BWk". *)
Theorem C8_group_B_code :
  (forall (p t : list Q) (s : bool),
      List.length p = 12%nat -> List.length t = 12%nat ->
      exists o, __init__ p t s = inr o
        /\ (prcp_sum o < prcp_threshold o ->
            get_classification o
            = ("B" ++ spec_arid_letter (prcp_sum o) (prcp_threshold o)
                   ++ spec_arid_heat_letter (temp_mean o))%string
            /\ String.length (get_classification o) = 3%nat))
  /\ (exists o, __init__ (repeat 5 12) (repeat 5 12) false = inr o
        /\ prcp_threshold o == 20 * 5 + 140
        /\ prcp_sum o == 60
        /\ temp_mean o == 5
        /\ get_classification o = "BWk"%string).
Proof.
  split.
  - intros p t s Hp Ht. destruct (init_total p t s Hp Ht) as [o [Ho D]].
    exists o. split; [exact Ho |]. intros HB.
    unfold get_classification.
    rewrite (d_koppen_class _ _ _ _ _ D), (classify_B o HB).
    split; [reflexivity |].
    unfold spec_arid_letter, spec_arid_heat_letter.
    destruct (Qlt_le_dec (prcp_sum o) (prcp_threshold o / 2));
      destruct (Qge_lt_dec (temp_mean o) 18); reflexivity.
  - eexists. split; [vm_compute; reflexivity |].
    repeat split; q_decide.
Qed.

Lemma C8_group_B_code_witness :
  exists o, __init__ (repeat 30 12) (repeat 20 12) true = inr o
    /\ prcp_sum o < prcp_threshold o
    /\ get_classification o = "BSh"%string.
Proof.
  destruct (proj1 C8_group_B_code (repeat 30 12) (repeat 20 12) true
              eq_refl eq_refl) as [o [E H]].
  exists o. split; [exact E |].
  assert (prcp_sum o < prcp_threshold o) as HB.
  { vm_compute in E. injection E as <-. q_decide. }
  split; [exact HB |].
  rewrite (proj1 (H HB)).
  vm_compute in E. injection E as <-. vm_compute. reflexivity.
Defined.

(** ** The aridity threshold *)

Lemma threshold_same_branch (s1 s2 : Basic) :
  prcp_winter s1 = prcp_winter s2 ->
  prcp_summer s1 = prcp_summer s2 ->
  prcp_sum s1 = prcp_sum s2 ->
  temp_mean s1 <= temp_mean s2 ->
  calculate_precip_threshold s1 <= calculate_precip_threshold s2.
Proof.
  intros Hw Hs Hsum Hle. unfold calculate_precip_threshold.
  rewrite Hw, Hs, Hsum. repeat case_if; lra.
Qed.

(** C9. Two records with the same precipitation array and the same hemisphere
    flag are both built, and if the mean temperature of the first is at most
    that of the second, so is its threshold. *)
Theorem C9_threshold_monotone (p t1 t2 : list Q) (s : bool) :
  List.length p = 12%nat ->
  List.length t1 = 12%nat -> List.length t2 = 12%nat ->
  exists o1 o2,
    __init__ p t1 s = inr o1 /\ __init__ p t2 s = inr o2
    /\ (temp_mean o1 <= temp_mean o2 ->
        prcp_threshold o1 <= prcp_threshold o2).
Proof.
  intros Hp H1 H2.
  destruct (init_total p t1 s Hp H1) as [o1 [E1 D1]].
  destruct (init_total p t2 s Hp H2) as [o2 [E2 D2]].
  exists o1, o2. split; [exact E1 | split; [exact E2 |]]. intros Hle.
  rewrite (d_prcp_threshold _ _ _ _ _ D1), (d_prcp_threshold _ _ _ _ _ D2).
  apply threshold_same_branch.
  - pose proof (d_prcp_winter _ _ _ _ _ D1) as A.
    pose proof (d_prcp_winter _ _ _ _ _ D2) as B. congruence.
  - pose proof (d_prcp_summer _ _ _ _ _ D1) as A.
    pose proof (d_prcp_summer _ _ _ _ _ D2) as B. congruence.
  - rewrite (d_prcp_sum _ _ _ _ _ D1), (d_prcp_sum _ _ _ _ _ D2). reflexivity.
  - exact Hle.
Qed.

Lemma C9_threshold_monotone_witness :
  exists o1 o2,
    __init__ (repeat 50 12) (repeat 5 12) false = inr o1
    /\ __init__ (repeat 50 12) (repeat 15 12) false = inr o2
    /\ temp_mean o1 <= temp_mean o2
    /\ prcp_threshold o1 <= prcp_threshold o2
    /\ prcp_threshold o1 == 240 /\ prcp_threshold o2 == 440.
Proof.
  destruct (C9_threshold_monotone (repeat 50 12) (repeat 5 12) (repeat 15 12)
              false eq_refl eq_refl eq_refl) as [o1 [o2 [E1 [E2 H]]]].
  exists o1, o2. split; [exact E1 | split; [exact E2 |]].
  assert (temp_mean o1 <= temp_mean o2) as Hle.
  { vm_compute in E1. injection E1 as <-.
    vm_compute in E2. injection E2 as <-. q_decide. }
  split; [exact Hle | split; [exact (H Hle) |]].
  vm_compute in E1. injection E1 as <-.
  vm_compute in E2. injection E2 as <-.
  split; q_decide.
Defined.

(** ** The seasons *)



Lemma fmap_bind_ext {A B C : Type} (f : B -> C) (c : result A)
  (k1 k2 : A -> result B) :
  (forall x, fmap f (k1 x) = fmap f (k2 x)) ->
  fmap f (bind c k1) = fmap f (bind c k2).
Proof. intros H. destruct c as [e | x]; [reflexivity | apply H]. Qed.

(** The hemisphere flag reaches the code through the season table only. *)
Lemma init_seasons_flag (p t : list Q) (s1 s2 : bool) (mi : MonInd) :
  fmap get_classification (init_seasons p t s1 mi)
  = fmap get_classification (init_seasons p t s2 mi).
Proof.
  unfold init_seasons.
  destruct (negb (List.length p =? 12)%nat || negb (List.length t =? 12)%nat);
    [reflexivity |].
  repeat (apply fmap_bind_ext; intros ?).
  reflexivity.
Qed.

(** C6. An object built with [south = False] has the months 3..8 as summer
    and the months {9, 10, 11, 0, 1, 2} as winter; one built with
    [south = True] from the same arrays has the two index lists exchanged, and
    every seasonal statistic of it is the opposite season's statistic of the
    northern object.  So the code of a record with the flag set equals the
    code obtained from the same arrays when the northern table is used with
    the roles of summer and winter swapped, that is with the months 3..8 as
    winter. *)
Theorem C6_hemisphere_swap :
  (forall (p t : list Q) (oN : KoppenClassification),
      __init__ p t false = inr oN ->
      summer (mon_ind oN) = [3; 4; 5; 6; 7; 8]%nat
      /\ winter (mon_ind oN) = [0; 1; 2; 9; 10; 11]%nat
      /\ forall i, In i (winter (mon_ind oN))
                   <-> In i [9; 10; 11; 0; 1; 2]%nat)
  /\ (forall (p t : list Q) (oN oS : KoppenClassification),
         __init__ p t false = inr oN -> __init__ p t true = inr oS ->
         mon_ind oS = swap_seasons (mon_ind oN)
         /\ mon_ind oN = swap_seasons (mon_ind oS)
         /\ prcp_summer oS = prcp_winter oN
         /\ prcp_winter oS = prcp_summer oN
         /\ prcp_summer_min oS = prcp_winter_min oN
         /\ prcp_summer_max oS = prcp_winter_max oN
         /\ prcp_winter_min oS = prcp_summer_min oN
         /\ prcp_winter_max oS = prcp_summer_max oN)
  /\ (forall p t : list Q,
         koppen p t true
         = fmap get_classification
             (init_seasons p t false
                {| summer := [0; 1; 2; 9; 10; 11]%nat;
                   winter := [3; 4; 5; 6; 7; 8]%nat |})).
Proof.
  split; [| split].
  - intros p t oN HN. rewrite init_table in HN.
    apply init_seasons_inr in HN.
    rewrite (d_mon_ind _ _ _ _ _ HN). simpl.
    split; [reflexivity | split; [reflexivity | intros i; simpl; lia]].
  - intros p t oN oS HN HS. rewrite init_table in HN, HS.
    apply init_seasons_inr in HN. apply init_seasons_inr in HS.
    rewrite (d_mon_ind _ _ _ _ _ HN), (d_mon_ind _ _ _ _ _ HS).
    split; [reflexivity | split; [reflexivity |]].
    pose proof (d_prcp_summer _ _ _ _ _ HN) as SN.
    pose proof (d_prcp_winter _ _ _ _ _ HN) as WN.
    pose proof (d_prcp_summer _ _ _ _ _ HS) as SS.
    pose proof (d_prcp_winter _ _ _ _ _ HS) as WS.
    change (summer (select_mon_ind true))
      with (winter (select_mon_ind false)) in SS.
    change (winter (select_mon_ind true))
      with (summer (select_mon_ind false)) in WS.
    assert (prcp_summer oS = prcp_winter oN) as E1 by congruence.
    assert (prcp_winter oS = prcp_summer oN) as E2 by congruence.
    pose proof (d_prcp_summer_min _ _ _ _ _ HN) as A1.
    pose proof (d_prcp_summer_max _ _ _ _ _ HN) as A2.
    pose proof (d_prcp_winter_min _ _ _ _ _ HN) as A3.
    pose proof (d_prcp_winter_max _ _ _ _ _ HN) as A4.
    pose proof (d_prcp_summer_min _ _ _ _ _ HS) as B1.
    pose proof (d_prcp_summer_max _ _ _ _ _ HS) as B2.
    pose proof (d_prcp_winter_min _ _ _ _ _ HS) as B3.
    pose proof (d_prcp_winter_max _ _ _ _ _ HS) as B4.
    rewrite E1 in B1, B2. rewrite E2 in B3, B4.
    repeat split; congruence.
  - intros p t. unfold koppen. rewrite init_table.
    apply init_seasons_flag.
Qed.

Lemma C6_hemisphere_swap_witness :
  koppen [30; 40; 20; 60; 80; 100; 150; 140; 90; 70; 50; 40]
         [10; 12; 15; 18; 20; 25; 30; 28; 22; 15; 12; 8] true
  = inr "Csa"%string
  /\ fmap get_classification
       (init_seasons [30; 40; 20; 60; 80; 100; 150; 140; 90; 70; 50; 40]
          [10; 12; 15; 18; 20; 25; 30; 28; 22; 15; 12; 8] false
          {| summer := [0; 1; 2; 9; 10; 11]%nat;
             winter := [3; 4; 5; 6; 7; 8]%nat |})
     = inr "Csa"%string.
Proof.
  assert (koppen [30; 40; 20; 60; 80; 100; 150; 140; 90; 70; 50; 40]
            [10; 12; 15; 18; 20; 25; 30; 28; 22; 15; 12; 8] true
          = inr "Csa"%string) as H by (vm_compute; reflexivity).
  split; [exact H |].
  rewrite <- H.
  symmetry.
  apply (proj2 (proj2 C6_hemisphere_swap)).
Defined.

(** ** Counting the warm months *)



(** ** Group E *)






(** * Further properties *)

(** ** Reductions of an array *)

Lemma Qmin_cases (x y : Q) : Qmin x y = x \/ Qmin x y = y.
Proof.
  unfold Qmin, GenericMinMax.gmin. destruct (x ?= y); auto.
Qed.

Lemma Qmax_cases (x y : Q) : Qmax x y = x \/ Qmax x y = y.
Proof.
  unfold Qmax, GenericMinMax.gmax. destruct (x ?= y); auto.
Qed.

Lemma fold_min_spec (r : list Q) (x : Q) :
  fold_left Qmin r x <= x
  /\ Forall (fun y => fold_left Qmin r x <= y) r
  /\ In (fold_left Qmin r x) (x :: r).
Proof.
  revert x. induction r as [| y r IH]; intros x; simpl.
  - split; [apply Qle_refl | split; [constructor | auto]].
  - destruct (IH (Qmin x y)) as (Hx & Hall & Hin).
    split; [eapply Qle_trans; [exact Hx | apply Q.le_min_l] |].
    split.
    + constructor; [eapply Qle_trans; [exact Hx | apply Q.le_min_r] | exact Hall].
    + destruct Hin as [Hin | Hin]; [| auto].
      rewrite <- Hin. destruct (Qmin_cases x y) as [-> | ->]; auto.
Qed.

Lemma fold_max_spec (r : list Q) (x : Q) :
  x <= fold_left Qmax r x
  /\ Forall (fun y => y <= fold_left Qmax r x) r
  /\ In (fold_left Qmax r x) (x :: r).
Proof.
  revert x. induction r as [| y r IH]; intros x; simpl.
  - split; [apply Qle_refl | split; [constructor | auto]].
  - destruct (IH (Qmax x y)) as (Hx & Hall & Hin).
    split; [eapply Qle_trans; [apply Q.le_max_l | exact Hx] |].
    split.
    + constructor; [eapply Qle_trans; [apply Q.le_max_r | exact Hx] | exact Hall].
    + destruct Hin as [Hin | Hin]; [| auto].
      rewrite <- Hin. destruct (Qmax_cases x y) as [-> | ->]; auto.
Qed.

(** [a.min()] is an element of the array, below all the others. *)
Lemma min_spec (a : list Q) (m : Q) :
  np.min a = inr m -> In m a /\ Forall (fun y => m <= y) a.
Proof.
  destruct a as [| x r]; simpl; [discriminate |].
  intros H. injection H as <-.
  destruct (fold_min_spec r x) as (Hx & Hall & Hin).
  split; [exact Hin | constructor; assumption].
Qed.

(** [a.max()] is an element of the array, above all the others. *)
Lemma max_spec (a : list Q) (m : Q) :
  np.max a = inr m -> In m a /\ Forall (fun y => y <= m) a.
Proof.
  destruct a as [| x r]; simpl; [discriminate |].
  intros H. injection H as <-.
  destruct (fold_max_spec r x) as (Hx & Hall & Hin).
  split; [exact Hin | constructor; assumption].
Qed.

Lemma min_le_max (a : list Q) (lo hi : Q) :
  np.min a = inr lo -> np.max a = inr hi -> lo <= hi.
Proof.
  intros Hlo Hhi.
  destruct (min_spec a lo Hlo) as [_ Hall].
  destruct (max_spec a hi Hhi) as [Hin _].
  rewrite Forall_forall in Hall. apply Hall. exact Hin.
Qed.

(** ** The other branches of the decision tree *)

Ltac py_props_Z :=
  py_props;
  repeat match goal with
    | H : (_ >=? _)%Z = true |- _ => rewrite Z.geb_leb in H; apply Z.leb_le in H
    | H : (_ >=? _)%Z = false |- _ => rewrite Z.geb_leb in H; apply Z.leb_gt in H
    end.

Ltac case_dec :=
  repeat match goal with
    | |- context [Qlt_le_dec ?a ?b] => destruct (Qlt_le_dec a b)
    | |- context [Qge_lt_dec ?a ?b] => destruct (Qge_lt_dec a b)
    | |- context [le_dec ?a ?b] => destruct (le_dec a b)
    end.

Ltac tree :=
  repeat case_if; py_props_Z; try reflexivity; exfalso;
  first [contradiction | lra | lia].

Lemma classify_E (self : Self) :
  ~ prcp_sum self < prcp_threshold self ->
  temp_min self < 18 -> temp_max self <= 10 ->
  classify self = ("E" ++ polar_letter (temp_max self))%string.
Proof.
  intros HB H18 H10. unfold classify, polar_letter. case_dec; tree.
Qed.


(** ** Group B read backwards, and the count of warm months *)

Lemma prefix_B_arid (self : Self) :
  prefix "B" (classify self) = true <-> prcp_sum self < prcp_threshold self.
Proof.
  split.
  - intros HB. destruct (Qlt_le_dec (prcp_sum self) (prcp_threshold self))
      as [L | L]; [exact L | exfalso].
    revert HB. unfold classify.
    repeat case_if; simpl; try discriminate; py_props; lra.
  - intros H. rewrite (classify_B self H).
    unfold spec_arid_letter, spec_arid_heat_letter. case_dec; reflexivity.
Qed.




(** ** Group E in general *)

(** X3. On twelve-month arrays, an object that is not arid and whose warmest
    month is at 10 degrees or less gets a two-letter code: "E", then "T" if
    [temp_max > 0], else "F".  (The Group A test comes first in [classify]
    but cannot pass here, since the coldest month is not warmer than the
    warmest.) *)
Theorem X3_group_E_code (p t : list Q) (s : bool) :
  List.length p = 12%nat -> List.length t = 12%nat ->
  exists o, __init__ p t s = inr o
    /\ (~ prcp_sum o < prcp_threshold o -> temp_max o <= 10 ->
        get_classification o = ("E" ++ polar_letter (temp_max o))%string
        /\ String.length (get_classification o) = 2%nat).
Proof.
  intros Hp Ht. destruct (init_total p t s Hp Ht) as [o [Ho D]].
  exists o. split; [exact Ho |]. intros HB H10.
  pose proof (min_le_max t _ _ (d_temp_min _ _ _ _ _ D)
                (d_temp_max _ _ _ _ _ D)) as Hmm.
  assert (temp_min o < 18) as H18 by lra.
  unfold get_classification.
  rewrite (d_koppen_class _ _ _ _ _ D), (classify_E o HB H18 H10).
  split; [reflexivity |]. unfold polar_letter. case_dec; reflexivity.
Qed.

Lemma X3_group_E_code_witness :
  exists o,
    __init__ (repeat 100 12) (repeat 5 12) true = inr o
    /\ ~ prcp_sum o < prcp_threshold o
    /\ temp_max o <= 10
    /\ get_classification o = "ET"%string.
Proof.
  destruct (X3_group_E_code (repeat 100 12) (repeat 5 12) true
              eq_refl eq_refl) as [o [E H]].
  exists o. split; [exact E |].
  assert (~ prcp_sum o < prcp_threshold o) as HB.
  { vm_compute in E. injection E as <-. q_decide. }
  assert (temp_max o <= 10) as H10.
  { vm_compute in E. injection E as <-. q_decide. }
  split; [exact HB | split; [exact H10 |]].
  rewrite (proj1 (H HB H10)).
  vm_compute in E. injection E as <-. vm_compute. reflexivity.
Defined.

(** ** The group letter, read backwards *)

Ltac group_fwd :=
  let H := fresh "H" in
  intros H; unfold classify in H; revert H;
  repeat case_if; simpl; try discriminate; intros _;
  py_props; repeat split; first [lra | apply Qle_not_lt; lra].

Ltac group_bwd :=
  unfold classify; repeat case_if; py_props; try reflexivity;
  exfalso; first [contradiction | lra].

Lemma prefix_A_iff (self : Self) :
  prefix "A" (classify self) = true
  <-> ~ prcp_sum self < prcp_threshold self /\ 18 <= temp_min self.
Proof. split; [group_fwd | intros [HB H1]; group_bwd]. Qed.

Lemma prefix_C_iff (self : Self) :
  prefix "C" (classify self) = true
  <-> ~ prcp_sum self < prcp_threshold self
      /\ 10 < temp_max self /\ 0 < temp_min self /\ temp_min self < 18.
Proof. split; [group_fwd | intros (HB & H1 & H2 & H3); group_bwd]. Qed.

Lemma prefix_D_iff (self : Self) :
  prefix "D" (classify self) = true
  <-> ~ prcp_sum self < prcp_threshold self
      /\ 10 < temp_max self /\ temp_min self <= 0.
Proof. split; [group_fwd | intros (HB & H1 & H2); group_bwd]. Qed.

Lemma prefix_E_iff (self : Self) :
  prefix "E" (classify self) = true
  <-> ~ prcp_sum self < prcp_threshold self
      /\ temp_min self < 18 /\ temp_max self <= 10.
Proof. split; [group_fwd | intros (HB & H1 & H2); group_bwd]. Qed.

(** X4. On twelve-month arrays the first letter of the code tells the band
    the record fell in, and conversely: "B" exactly when
    [prcp_sum < prcp_threshold]; otherwise "A" exactly when
    [temp_min >= 18], "C" exactly when [temp_max > 10] and
    [0 < temp_min < 18], "D" exactly when [temp_max > 10] and
    [temp_min <= 0], and "E" exactly when [temp_max <= 10]. *)
Theorem X4_group_letter (p t : list Q) (s : bool) :
  List.length p = 12%nat -> List.length t = 12%nat ->
  exists o, __init__ p t s = inr o
    /\ (prefix "B" (get_classification o) = true
        <-> prcp_sum o < prcp_threshold o)
    /\ (prefix "A" (get_classification o) = true
        <-> ~ prcp_sum o < prcp_threshold o /\ 18 <= temp_min o)
    /\ (prefix "C" (get_classification o) = true
        <-> ~ prcp_sum o < prcp_threshold o
            /\ 10 < temp_max o /\ 0 < temp_min o /\ temp_min o < 18)
    /\ (prefix "D" (get_classification o) = true
        <-> ~ prcp_sum o < prcp_threshold o
            /\ 10 < temp_max o /\ temp_min o <= 0)
    /\ (prefix "E" (get_classification o) = true
        <-> ~ prcp_sum o < prcp_threshold o /\ temp_max o <= 10).
Proof.
  intros Hp Ht. destruct (init_total p t s Hp Ht) as [o [Ho D]].
  exists o. split; [exact Ho |].
  unfold get_classification. rewrite (d_koppen_class _ _ _ _ _ D).
  split; [apply prefix_B_arid |].
  split; [apply prefix_A_iff |].
  split; [apply prefix_C_iff |].
  split; [apply prefix_D_iff |].
  rewrite prefix_E_iff.
  pose proof (min_le_max t _ _ (d_temp_min _ _ _ _ _ D)
                (d_temp_max _ _ _ _ _ D)) as Hmm.
  split; [intros (HB & _ & H10); split; assumption |].
  intros (HB & H10). repeat split; [exact HB | lra | exact H10].
Qed.

Lemma X4_group_letter_witness :
  List.length (repeat 100 12) = 12%nat
  /\ List.length [-5; -5; -5; 12; 15; 20; 20; 15; 12; -5; -5; -5] = 12%nat
  /\ exists o,
      __init__ (repeat 100 12)
               [-5; -5; -5; 12; 15; 20; 20; 15; 12; -5; -5; -5] false = inr o
      /\ get_classification o = "Dfb"%string
      /\ ~ prcp_sum o < prcp_threshold o
      /\ 10 < temp_max o /\ temp_min o <= 0.
Proof.
  split; [reflexivity | split; [reflexivity |]].
  destruct (X4_group_letter (repeat 100 12)
              [-5; -5; -5; 12; 15; 20; 20; 15; 12; -5; -5; -5] false
              eq_refl eq_refl) as [o [E (_ & _ & _ & HD & _)]].
  exists o. split; [exact E |].
  assert (get_classification o = "Dfb"%string) as C.
  { vm_compute in E. injection E as <-. reflexivity. }
  split; [exact C |].
  apply HD. rewrite C. reflexivity.
Defined.

(** ** The codes *)




(** ** The statistics *)



(** * The program on binary64 numbers *)

Import (coercions) F64.

(** ** The scenarios of the spec, as the program runs them *)

Example f64_scenario1 :
  F64.koppen (map F64.int (repeat 250%Z 12)) (map F64.int (repeat 25%Z 12))
             false = inr "Af"%string.
Proof. vm_compute. reflexivity. Qed.

Example f64_scenario2 :
  F64.koppen (map F64.int (repeat 5%Z 12)) (map F64.int (repeat 5%Z 12))
             false = inr "BWk"%string.
Proof. vm_compute. reflexivity. Qed.

Example f64_scenario3_south :
  F64.koppen
    (map F64.int [30; 40; 20; 60; 80; 100; 150; 140; 90; 70; 50; 40]%Z)
    (map F64.int [10; 12; 15; 18; 20; 25; 30; 28; 22; 15; 12; 8]%Z) true
  = inr "Csa"%string.
Proof. vm_compute. reflexivity. Qed.

Example f64_scenario4 :
  F64.koppen (map F64.int (repeat 1%Z 11)) (map F64.int (repeat 1%Z 11)) false
  = inl InvalidInput.
Proof. reflexivity. Qed.

Example f64_take_out_of_range :
  F64.np.take (map F64.int [1; 2; 3]%Z) [0; 5]%nat
  = inl (IndexError "index 5 is out of bounds for axis 0 with size 3").
Proof. reflexivity. Qed.

(** ** The order of binary64 numbers *)

Lemma SFcompare_antisym (x y : spec_float) :
  SFcompare y x = option_map CompOpp (SFcompare x y).
Proof.
  destruct x as [sx | sx | | sx mx ex], y as [sy | sy | | sy my ey];
    try destruct sx; try destruct sy; try reflexivity; simpl;
    rewrite !Pos.compare_cont_spec; simpl;
    rewrite (Z.compare_antisym ex ey), (Pos.compare_antisym mx my);
    destruct (ex ?= ey)%Z, (mx ?= my)%positive; reflexivity.
Qed.

Lemma ltb_leb_false (x y : spec_float) : SFltb x y = true -> SFleb y x = false.
Proof.
  unfold SFltb, SFleb. rewrite (SFcompare_antisym x y).
  destruct (SFcompare x y) as [[| |] |]; simpl; congruence.
Qed.

Lemma leb_ltb_false (x y : spec_float) : SFleb x y = true -> SFltb y x = false.
Proof.
  unfold SFltb, SFleb. rewrite (SFcompare_antisym x y).
  destruct (SFcompare x y) as [[| |] |]; simpl; congruence.
Qed.




Lemma leb_not_nan (x y : spec_float) :
  SFleb x y = true -> F64.is_nan x = false /\ F64.is_nan y = false.
Proof.
  unfold SFleb. destruct x, y; simpl; intros; try discriminate; auto.
Qed.

Lemma leb_place (x y : spec_float) :
  F64.is_nan x = false -> F64.is_nan y = false ->
  (SFleb x y = true <-> F64.place_le (F64.place x) (F64.place y)).
Proof.
  unfold SFleb.
  destruct x as [sx | sx | | sx mx ex], y as [sy | sy | | sy my ey];
    simpl; intros Hx Hy; try discriminate;
    try destruct sx; try destruct sy; simpl;
    try (split; [intros _; lia | reflexivity]);
    try (split; [discriminate | intros H; exfalso; lia]).
  - destruct (Z.compare_spec ex ey) as [E | L | G].
    + subst ey. rewrite Pos.compare_cont_spec. simpl.
      destruct (Pos.compare_spec mx my) as [E | L | G]; simpl;
        (split; [intros H; try discriminate; lia | intros H; try reflexivity; exfalso; lia]).
    + split; [discriminate | intros H; exfalso; lia].
    + split; [intros _; lia | reflexivity].
  - destruct (Z.compare_spec ex ey) as [E | L | G].
    + subst ey. rewrite Pos.compare_cont_spec. simpl.
      destruct (Pos.compare_spec mx my) as [E | L | G]; simpl;
        (split; [intros H; try discriminate; lia | intros H; try reflexivity; exfalso; lia]).
    + split; [intros _; lia | reflexivity].
    + split; [discriminate | intros H; exfalso; lia].
Qed.

Lemma leb_trans (x y z : spec_float) :
  SFleb x y = true -> SFleb y z = true -> SFleb x z = true.
Proof.
  intros Hxy Hyz.
  destruct (leb_not_nan x y Hxy) as [Nx Ny].
  destruct (leb_not_nan y z Hyz) as [_ Nz].
  apply (leb_place x y Nx Ny) in Hxy. apply (leb_place y z Ny Nz) in Hyz.
  apply (leb_place x z Nx Nz).
  destruct (F64.place x) as [[a1 a2] a3], (F64.place y) as [[b1 b2] b3],
    (F64.place z) as [[c1 c2] c3].
  unfold F64.place_le in *. lia.
Qed.


(** Numbers that compare equal are the same number, or two zeros. *)
Lemma eqb_cases (x y : spec_float) :
  SFeqb x y = true ->
  x = y \/ exists s s', x = S754_zero s /\ y = S754_zero s'.
Proof.
  unfold SFeqb.
  destruct x as [sx | sx | | sx mx ex], y as [sy | sy | | sy my ey];
    simpl; try discriminate;
    try destruct sx; try destruct sy; simpl; try discriminate;
    try (intros _; left; reflexivity);
    try (intros _; right; eauto; fail).
  all: destruct (Z.compare_spec ex ey) as [E | L | G]; try discriminate;
    subst ey; rewrite Pos.compare_cont_spec; simpl;
    destruct (Pos.compare_spec mx my) as [E | L | G]; try discriminate;
    subst my; left; reflexivity.
Qed.

Lemma compare_zero_l (s s' : bool) (y : spec_float) :
  SFcompare (S754_zero s) y = SFcompare (S754_zero s') y.
Proof. destruct y; reflexivity. Qed.

Lemma compare_zero_r (s s' : bool) (x : spec_float) :
  SFcompare x (S754_zero s) = SFcompare x (S754_zero s').
Proof. destruct x; reflexivity. Qed.

(** The tests of the program do not tell numerically equal numbers apart. *)
Lemma compare_num_eq (x x' y y' : spec_float) :
  SFeqb x x' = true -> SFeqb y y' = true ->
  SFcompare x y = SFcompare x' y'.
Proof.
  intros Hx Hy.
  destruct (eqb_cases x x' Hx) as [-> | (s1 & s1' & -> & ->)];
    destruct (eqb_cases y y' Hy) as [-> | (s2 & s2' & -> & ->)];
    try reflexivity;
    first [apply compare_zero_r | apply compare_zero_l].
Qed.

(** ** What the constructor computes, on binary64 numbers *)

Lemma f64_init_inr (p t : list F64.float) (s : bool)
  (o : F64.KoppenClassification) :
  F64.__init__ p t s = inr o -> F64.Derived p t s o.
Proof.
  unfold F64.__init__.
  destruct (negb (List.length p =? 12)%nat || negb (List.length t =? 12)%nat)
    eqn:Hlen; [discriminate |].
  apply orb_false_iff in Hlen. destruct Hlen as [Hp Ht].
  apply negb_false_iff, Nat.eqb_eq in Hp.
  apply negb_false_iff, Nat.eqb_eq in Ht.
  intros H.
  repeat (apply bind_inr in H; destruct H as [? [? H]]).
  injection H as <-.
  destruct s; constructor; simpl; auto.
Qed.

Lemma f64_take_inr (a : list F64.float) (ind : list nat) :
  Forall (fun i => (i < List.length a)%nat) ind ->
  exists xs, F64.np.take a ind = inr xs /\ List.length xs = List.length ind.
Proof.
  induction 1 as [| i ind Hi _ [xs [IH Hl]]]; simpl.
  - exists []. split; reflexivity.
  - apply nth_error_Some in Hi.
    destruct (nth_error a i) as [x |]; [| congruence].
    rewrite IH. exists (x :: xs). split; [reflexivity | simpl; congruence].
Qed.

Lemma f64_min_inr (a : list F64.float) :
  (0 < List.length a)%nat -> exists m, F64.np.min a = inr m.
Proof. destruct a; simpl; [lia | eauto]. Qed.

Lemma f64_max_inr (a : list F64.float) :
  (0 < List.length a)%nat -> exists m, F64.np.max a = inr m.
Proof. destruct a; simpl; [lia | eauto]. Qed.

(** On twelve-month arrays the constructor returns an object. *)
Lemma f64_init_total (p t : list F64.float) (s : bool) :
  List.length p = 12%nat -> List.length t = 12%nat ->
  exists o, F64.__init__ p t s = inr o /\ F64.Derived p t s o.
Proof.
  intros Hp Ht.
  assert (exists o, F64.__init__ p t s = inr o) as [o Ho].
  { unfold F64.__init__. rewrite Hp, Ht. simpl orb. cbv iota.
    destruct (select_mon_ind_bounds s _ Hp) as (Hs & Hw & Ls & Lw).
    destruct (f64_min_inr p) as [? ->]; [lia |].
    destruct (f64_min_inr t) as [? ->]; [lia |].
    destruct (f64_max_inr t) as [? ->]; [lia |].
    unfold bind at 1 2 3.
    change (if s
            then {| summer := snd ([3; 4; 5; 6; 7; 8], [0; 1; 2; 9; 10; 11])%nat;
                    winter := fst ([3; 4; 5; 6; 7; 8], [0; 1; 2; 9; 10; 11])%nat |}
            else {| summer := fst ([3; 4; 5; 6; 7; 8], [0; 1; 2; 9; 10; 11])%nat;
                    winter := snd ([3; 4; 5; 6; 7; 8], [0; 1; 2; 9; 10; 11])%nat |})
      with (if s then select_mon_ind true else select_mon_ind false).
    replace (if s then select_mon_ind true else select_mon_ind false)
      with (select_mon_ind s) by (destruct s; reflexivity).
    destruct (f64_take_inr _ _ Hs) as [ps [-> Lps]].
    destruct (f64_take_inr _ _ Hw) as [pw [-> Lpw]].
    unfold bind at 1 2.
    destruct (f64_min_inr ps) as [? ->]; [lia |].
    destruct (f64_max_inr ps) as [? ->]; [lia |].
    destruct (f64_min_inr pw) as [? ->]; [lia |].
    destruct (f64_max_inr pw) as [? ->]; [lia |].
    simpl. eauto. }
  exists o. split; [exact Ho |]. apply f64_init_inr. exact Ho.
Qed.

Lemma f64_koppen_inr (p t : list F64.float) (s : bool)
  (o : F64.KoppenClassification) :
  F64.__init__ p t s = inr o -> F64.koppen p t s = inr (F64.koppen_class o).
Proof. unfold F64.koppen. intros ->. reflexivity. Qed.



(** ** The decision tree on binary64 numbers *)

Ltac f64_props :=
  unfold F64.lt, F64.le in *;
  repeat match goal with
    | H : ~ (_ = true) |- _ => apply not_true_is_false in H
    end.

Ltac f64_dec :=
  repeat match goal with
    | |- context [F64.lt_dec ?a ?b] => destruct (F64.lt_dec a b)
    | |- context [F64.ge_dec ?a ?b] => destruct (F64.ge_dec a b)
    | |- context [le_dec ?a ?b] => destruct (le_dec a b)
    end.

Ltac f64_tree :=
  f64_props;
  repeat match goal with
    | H : SFltb ?a ?b = _ |- context [SFltb ?a ?b] => rewrite H
    | H : SFleb ?a ?b = _ |- context [SFleb ?a ?b] => rewrite H
    end;
  repeat case_if; py_props_Z; try reflexivity; exfalso;
  first [congruence | lia].

Lemma f64_sum_int_count_from (t : list F64.float) (acc : Z) :
  fold_left Z.add (F64.np.astype_int (F64.np.gt t (F64.int 10))) acc
  = (acc + Z.of_nat (F64.spec_months_above_10 t))%Z.
Proof.
  unfold F64.np.astype_int, F64.np.gt, F64.spec_months_above_10.
  revert acc. induction t as [| x t IH]; intros acc; cbn [map fold_left filter].
  - simpl. lia.
  - rewrite IH. destruct (F64.lt_dec (F64.int 10) x) as [L | L];
      unfold F64.lt in L.
    + rewrite L. cbn [List.length]. lia.
    + apply not_true_is_false in L. rewrite L. lia.
Qed.

Lemma f64_sum_int_count (t : list F64.float) :
  F64.np.sum_int (F64.np.astype_int (F64.np.gt t (F64.int 10)))
  = Z.of_nat (F64.spec_months_above_10 t).
Proof. unfold F64.np.sum_int. rewrite f64_sum_int_count_from. lia. Qed.

Lemma f64_classify_C (self : F64.Self) (n : nat) :
  F64.nu_mon_gt10deg self = Z.of_nat n ->
  ~ F64.lt (F64.prcp_sum self) (F64.prcp_threshold self) ->
  F64.lt (F64.temp_min self) (F64.int 18) ->
  F64.lt (F64.int 10) (F64.temp_max self) ->
  F64.lt (F64.int 0) (F64.temp_min self) ->
  F64.classify self
  = ("C" ++ F64.spec_dry_letter
              (F64.prcp_summer_min self) (F64.prcp_summer_max self)
              (F64.prcp_winter_min self) (F64.prcp_winter_max self)
         ++ F64.spec_heat_letter (F64.temp_max self) n)%string.
Proof.
  intros Hn HB H18 H10 H0.
  pose proof (ltb_leb_false _ _ H18) as HA.
  unfold F64.classify, F64.spec_dry_letter, F64.spec_heat_letter.
  rewrite Hn. f64_dec; f64_tree.
Qed.

Lemma f64_classify_A (self : F64.Self) :
  ~ F64.lt (F64.prcp_sum self) (F64.prcp_threshold self) ->
  F64.le (F64.int 18) (F64.temp_min self) ->
  F64.classify self
  = ("A" ++ F64.tropical_letter (F64.prcp_min self) (F64.prcp_sum self))%string.
Proof.
  intros HB HA. unfold F64.classify, F64.tropical_letter.
  f64_dec; f64_tree.
Qed.

Lemma f64_classify_D (self : F64.Self) (n : nat) :
  F64.nu_mon_gt10deg self = Z.of_nat n ->
  ~ F64.lt (F64.prcp_sum self) (F64.prcp_threshold self) ->
  F64.lt (F64.int 10) (F64.temp_max self) ->
  F64.le (F64.temp_min self) (F64.int 0) ->
  F64.classify self
  = ("D" ++ F64.spec_dry_letter
              (F64.prcp_summer_min self) (F64.prcp_summer_max self)
              (F64.prcp_winter_min self) (F64.prcp_winter_max self)
         ++ F64.continental_letter (F64.temp_max self) (F64.temp_min self) n)
      %string.
Proof.
  intros Hn HB H10 H0.
  assert (SFleb (F64.int 18) (F64.temp_min self) = false) as HA.
  { destruct (SFleb (F64.int 18) (F64.temp_min self)) eqn:E; [| reflexivity].
    pose proof (leb_trans _ _ _ E H0) as C. vm_compute in C. discriminate. }
  pose proof (leb_ltb_false _ _ H0) as HC.
  unfold F64.classify, F64.spec_dry_letter, F64.continental_letter.
  rewrite Hn. f64_dec; f64_tree.
Qed.

(** ** The aridity threshold, as the program computes it *)

(** C4. For every set of statistics the threshold follows the three-branch
    rule, the first branch that matches deciding: winter sum above
    [0.7 * prcp_sum] gives [20 * temp_mean]; otherwise summer sum above
    [0.7 * prcp_sum] gives [20 * temp_mean + 280]; otherwise
    [20 * temp_mean + 140].  Every product and sum is the binary64 one of the
    program, so [0.7 * prcp_sum] can lie just below 70 per cent of the total.
    The threshold stored in an object built by the constructor is this
    function of the object's own statistics. *)
Theorem C4_threshold_rule :
  (forall self : F64.Basic,
      (F64.lt (F64.mul (F64.dec 7 1) (F64.prcp_sum self))
              (F64.np.sum (F64.prcp_winter self)) ->
       F64.calculate_precip_threshold self
       = F64.mul (F64.int 20) (F64.temp_mean self))
      /\ (~ F64.lt (F64.mul (F64.dec 7 1) (F64.prcp_sum self))
                   (F64.np.sum (F64.prcp_winter self)) ->
          F64.lt (F64.mul (F64.dec 7 1) (F64.prcp_sum self))
                 (F64.np.sum (F64.prcp_summer self)) ->
          F64.calculate_precip_threshold self
          = F64.add (F64.mul (F64.int 20) (F64.temp_mean self)) (F64.int 280))
      /\ (~ F64.lt (F64.mul (F64.dec 7 1) (F64.prcp_sum self))
                   (F64.np.sum (F64.prcp_winter self)) ->
          ~ F64.lt (F64.mul (F64.dec 7 1) (F64.prcp_sum self))
                   (F64.np.sum (F64.prcp_summer self)) ->
          F64.calculate_precip_threshold self
          = F64.add (F64.mul (F64.int 20) (F64.temp_mean self)) (F64.int 140)))
  /\ (forall (p t : list F64.float) (s : bool) (o : F64.KoppenClassification),
         F64.__init__ p t s = inr o ->
         F64.prcp_threshold o = F64.calculate_precip_threshold o).
Proof.
  split.
  - intros self. unfold F64.calculate_precip_threshold.
    repeat split; intros; f64_tree.
  - intros p t s o Ho. apply f64_init_inr in Ho.
    apply (F64.d_prcp_threshold _ _ _ _ Ho).
Qed.

Lemma C4_threshold_rule_witness :
  (exists o,
      F64.__init__ (map F64.int [41; 41; 41; 17; 17; 18; 18; 17; 18; 41; 41; 40]%Z)
                   (map F64.int (repeat 15%Z 12)) false = inr o
      /\ F64.num_eq (F64.np.sum (F64.prcp_winter o)) (F64.int 245)
      /\ F64.num_eq (F64.prcp_sum o) (F64.int 350)
      /\ F64.lt (F64.mul (F64.dec 7 1) (F64.prcp_sum o))
                (F64.np.sum (F64.prcp_winter o))
      /\ F64.prcp_threshold o = F64.mul (F64.int 20) (F64.temp_mean o)
      /\ F64.num_eq (F64.prcp_threshold o) (F64.int 300))
  /\ (exists o,
         F64.__init__ (map F64.int [90; 90; 90; 10; 10; 10; 10; 10; 10; 90; 90; 90]%Z)
                      (map F64.int (repeat 10%Z 12)) true = inr o
         /\ ~ F64.lt (F64.mul (F64.dec 7 1) (F64.prcp_sum o))
                     (F64.np.sum (F64.prcp_winter o))
         /\ F64.lt (F64.mul (F64.dec 7 1) (F64.prcp_sum o))
                   (F64.np.sum (F64.prcp_summer o))
         /\ F64.prcp_threshold o
            = F64.add (F64.mul (F64.int 20) (F64.temp_mean o)) (F64.int 280)
         /\ F64.num_eq (F64.prcp_threshold o) (F64.int 480))
  /\ (exists o,
         F64.__init__ (map F64.int (repeat 50%Z 12))
                      (map F64.int (repeat 10%Z 12)) false = inr o
         /\ ~ F64.lt (F64.mul (F64.dec 7 1) (F64.prcp_sum o))
                     (F64.np.sum (F64.prcp_winter o))
         /\ ~ F64.lt (F64.mul (F64.dec 7 1) (F64.prcp_sum o))
                     (F64.np.sum (F64.prcp_summer o))
         /\ F64.prcp_threshold o
            = F64.add (F64.mul (F64.int 20) (F64.temp_mean o)) (F64.int 140)
         /\ F64.num_eq (F64.prcp_threshold o) (F64.int 340)).
Proof.
  split; [| split].
  - destruct (f64_init_total
                (map F64.int [41; 41; 41; 17; 17; 18; 18; 17; 18; 41; 41; 40]%Z)
                (map F64.int (repeat 15%Z 12)) false eq_refl eq_refl)
      as [o [E _]].
    exists o. split; [exact E |].
    split; [vm_compute in E; injection E as <-; q_decide |].
    split; [vm_compute in E; injection E as <-; q_decide |].
    assert (F64.lt (F64.mul (F64.dec 7 1) (F64.prcp_sum o))
              (F64.np.sum (F64.prcp_winter o))) as H1.
    { vm_compute in E. injection E as <-. q_decide. }
    split; [exact H1 |].
    split.
    + rewrite (proj2 C4_threshold_rule _ _ _ _ E).
      exact (proj1 (proj1 C4_threshold_rule o) H1).
    + vm_compute in E. injection E as <-. q_decide.
  - destruct (f64_init_total
                (map F64.int [90; 90; 90; 10; 10; 10; 10; 10; 10; 90; 90; 90]%Z)
                (map F64.int (repeat 10%Z 12)) true eq_refl eq_refl)
      as [o [E _]].
    exists o. split; [exact E |].
    assert (~ F64.lt (F64.mul (F64.dec 7 1) (F64.prcp_sum o))
              (F64.np.sum (F64.prcp_winter o))) as H1.
    { vm_compute in E. injection E as <-. q_decide. }
    assert (F64.lt (F64.mul (F64.dec 7 1) (F64.prcp_sum o))
              (F64.np.sum (F64.prcp_summer o))) as H2.
    { vm_compute in E. injection E as <-. q_decide. }
    split; [exact H1 | split; [exact H2 |]].
    split.
    + rewrite (proj2 C4_threshold_rule _ _ _ _ E).
      exact (proj1 (proj2 (proj1 C4_threshold_rule o)) H1 H2).
    + vm_compute in E. injection E as <-. q_decide.
  - destruct (f64_init_total (map F64.int (repeat 50%Z 12))
                (map F64.int (repeat 10%Z 12)) false eq_refl eq_refl)
      as [o [E _]].
    exists o. split; [exact E |].
    assert (~ F64.lt (F64.mul (F64.dec 7 1) (F64.prcp_sum o))
              (F64.np.sum (F64.prcp_winter o))) as H1.
    { vm_compute in E. injection E as <-. q_decide. }
    assert (~ F64.lt (F64.mul (F64.dec 7 1) (F64.prcp_sum o))
              (F64.np.sum (F64.prcp_summer o))) as H2.
    { vm_compute in E. injection E as <-. q_decide. }
    split; [exact H1 | split; [exact H2 |]].
    split.
    + rewrite (proj2 C4_threshold_rule _ _ _ _ E).
      exact (proj2 (proj2 (proj1 C4_threshold_rule o)) H1 H2).
    + vm_compute in E. injection E as <-. q_decide.
Defined.

(** ** Group C, as the program computes it *)

(** C7. On twelve-month arrays an object is built; its [nu_mon_gt10deg] is the
    number of months strictly warmer than 10; and when it reaches Group C
    (not arid, [temp_min < 18], [temp_max > 10], [0 < temp_min]) its code is
    "C", then the dry-season letter, then the heat letter, where the quotients
    [prcp_winter_max / 3] and [prcp_summer_max / 10] are the binary64 ones of
    the program.  The record of the test script (scenario 3), north, gets
    "Cfa". *)
Theorem C7_group_C_code :
  (forall (p t : list F64.float) (s : bool),
      List.length p = 12%nat -> List.length t = 12%nat ->
      exists o, F64.__init__ p t s = inr o
        /\ F64.nu_mon_gt10deg o = Z.of_nat (F64.spec_months_above_10 t)
        /\ (~ F64.lt (F64.prcp_sum o) (F64.prcp_threshold o) ->
            F64.lt (F64.temp_min o) (F64.int 18) ->
            F64.lt (F64.int 10) (F64.temp_max o) ->
            F64.lt (F64.int 0) (F64.temp_min o) ->
            F64.get_classification o
            = ("C" ++ F64.spec_dry_letter
                        (F64.prcp_summer_min o) (F64.prcp_summer_max o)
                        (F64.prcp_winter_min o) (F64.prcp_winter_max o)
                   ++ F64.spec_heat_letter (F64.temp_max o)
                        (F64.spec_months_above_10 t))%string))
  /\ F64.koppen
       (map F64.int [30; 40; 20; 60; 80; 100; 150; 140; 90; 70; 50; 40]%Z)
       (map F64.int [10; 12; 15; 18; 20; 25; 30; 28; 22; 15; 12; 8]%Z) false
     = inr "Cfa"%string.
Proof.
  split; [| vm_compute; reflexivity].
  intros p t s Hp Ht. destruct (f64_init_total p t s Hp Ht) as [o [Ho D]].
  exists o. split; [exact Ho |].
  assert (F64.nu_mon_gt10deg o = Z.of_nat (F64.spec_months_above_10 t)) as Hn.
  { rewrite (F64.d_nu_mon_gt10deg _ _ _ _ D). apply f64_sum_int_count. }
  split; [exact Hn |]. intros HB H18 H10 H0.
  unfold F64.get_classification. rewrite (F64.d_koppen_class _ _ _ _ D).
  apply f64_classify_C; assumption.
Qed.

(** The summer minimum is the binary64 nearest to 70/3, which is below 70/3;
    the program compares it with the same rounded quotient and finds no dry
    summer. *)
Lemma C7_group_C_code_witness :
  exists o,
    F64.__init__
      [F64.int 70; F64.int 70; F64.int 70; F64.div (F64.int 70) (F64.int 3);
       F64.int 30; F64.int 30; F64.int 30; F64.int 30; F64.int 30;
       F64.int 70; F64.int 70; F64.int 70]
      (map F64.int [5; 5; 5; 12; 12; 12; 12; 12; 12; 5; 5; 5]%Z) false = inr o
    /\ ~ F64.lt (F64.prcp_sum o) (F64.prcp_threshold o)
    /\ F64.lt (F64.temp_min o) (F64.int 18)
    /\ F64.lt (F64.int 10) (F64.temp_max o)
    /\ F64.lt (F64.int 0) (F64.temp_min o)
    /\ F64.get_classification o
       = ("C" ++ F64.spec_dry_letter
                   (F64.prcp_summer_min o) (F64.prcp_summer_max o)
                   (F64.prcp_winter_min o) (F64.prcp_winter_max o)
              ++ F64.spec_heat_letter (F64.temp_max o) 6)%string
    /\ F64.get_classification o = "Cfb"%string.
Proof.
  destruct (proj1 C7_group_C_code
              [F64.int 70; F64.int 70; F64.int 70;
               F64.div (F64.int 70) (F64.int 3);
               F64.int 30; F64.int 30; F64.int 30; F64.int 30; F64.int 30;
               F64.int 70; F64.int 70; F64.int 70]
              (map F64.int [5; 5; 5; 12; 12; 12; 12; 12; 12; 5; 5; 5]%Z) false
              eq_refl eq_refl) as [o [E [_ H]]].
  exists o. split; [exact E |].
  assert (~ F64.lt (F64.prcp_sum o) (F64.prcp_threshold o)) as HB.
  { vm_compute in E. injection E as <-. q_decide. }
  assert (F64.lt (F64.temp_min o) (F64.int 18)) as H18.
  { vm_compute in E. injection E as <-. q_decide. }
  assert (F64.lt (F64.int 10) (F64.temp_max o)) as H10.
  { vm_compute in E. injection E as <-. q_decide. }
  assert (F64.lt (F64.int 0) (F64.temp_min o)) as H0.
  { vm_compute in E. injection E as <-. q_decide. }
  repeat (split; [assumption |]).
  split; [exact (H HB H18 H10 H0) |].
  vm_compute in E. injection E as <-. reflexivity.
Defined.

(** ** The seasons, as the program computes them *)




(** ** Groups A and D, as the program computes them *)

(** X1. On twelve-month arrays, an object that is not arid and whose coldest
    month is at 18 degrees or more gets a two-letter code: "A", then "f" if
    [prcp_min >= 60], else "m" if [prcp_min >= 100 - prcp_sum / 25] (the
    binary64 quotient and difference of the program), else "w". *)
Theorem X1_group_A_code (p t : list F64.float) (s : bool) :
  List.length p = 12%nat -> List.length t = 12%nat ->
  exists o, F64.__init__ p t s = inr o
    /\ (~ F64.lt (F64.prcp_sum o) (F64.prcp_threshold o) ->
        F64.le (F64.int 18) (F64.temp_min o) ->
        F64.get_classification o
        = ("A" ++ F64.tropical_letter (F64.prcp_min o) (F64.prcp_sum o))%string
        /\ String.length (F64.get_classification o) = 2%nat).
Proof.
  intros Hp Ht. destruct (f64_init_total p t s Hp Ht) as [o [Ho D]].
  exists o. split; [exact Ho |]. intros HB HA.
  unfold F64.get_classification.
  rewrite (F64.d_koppen_class _ _ _ _ D), (f64_classify_A o HB HA).
  split; [reflexivity |]. unfold F64.tropical_letter. f64_dec; reflexivity.
Qed.

(** The driest month, 12.961538461538453 mm, is the binary64 value of
    [100 - prcp_sum / 25] for this record: the program finds a monsoon
    climate. *)
Lemma X1_group_A_code_witness :
  exists o,
    F64.__init__
      (F64.dec 12961538461538453 15
       :: map F64.int [191; 169; 200; 233; 156; 159; 255; 218; 162; 196; 224]%Z)
      (map F64.int (repeat 25%Z 12)) false = inr o
    /\ ~ F64.lt (F64.prcp_sum o) (F64.prcp_threshold o)
    /\ F64.le (F64.int 18) (F64.temp_min o)
    /\ F64.get_classification o = "Am"%string.
Proof.
  destruct (X1_group_A_code
              (F64.dec 12961538461538453 15
               :: map F64.int
                    [191; 169; 200; 233; 156; 159; 255; 218; 162; 196; 224]%Z)
              (map F64.int (repeat 25%Z 12)) false eq_refl eq_refl)
    as [o [E H]].
  exists o. split; [exact E |].
  assert (~ F64.lt (F64.prcp_sum o) (F64.prcp_threshold o)) as HB.
  { vm_compute in E. injection E as <-. q_decide. }
  assert (F64.le (F64.int 18) (F64.temp_min o)) as HA.
  { vm_compute in E. injection E as <-. q_decide. }
  split; [exact HB | split; [exact HA |]].
  rewrite (proj1 (H HB HA)).
  vm_compute in E. injection E as <-. vm_compute. reflexivity.
Defined.

(** X2. On twelve-month arrays, an object that is not arid, whose warmest
    month is above 10 degrees and whose coldest month is at 0 degrees or less
    gets a three-letter code: "D", the dry-season letter of Group C, and then
    "a" if [temp_max >= 22], else "b" if at least four months are above 10
    degrees, else "d" if [temp_min < -38], else "c". *)
Theorem X2_group_D_code (p t : list F64.float) (s : bool) :
  List.length p = 12%nat -> List.length t = 12%nat ->
  exists o, F64.__init__ p t s = inr o
    /\ (~ F64.lt (F64.prcp_sum o) (F64.prcp_threshold o) ->
        F64.lt (F64.int 10) (F64.temp_max o) ->
        F64.le (F64.temp_min o) (F64.int 0) ->
        F64.get_classification o
        = ("D" ++ F64.spec_dry_letter
                    (F64.prcp_summer_min o) (F64.prcp_summer_max o)
                    (F64.prcp_winter_min o) (F64.prcp_winter_max o)
               ++ F64.continental_letter (F64.temp_max o) (F64.temp_min o)
                    (F64.spec_months_above_10 t))%string
        /\ String.length (F64.get_classification o) = 3%nat).
Proof.
  intros Hp Ht. destruct (f64_init_total p t s Hp Ht) as [o [Ho D]].
  exists o. split; [exact Ho |]. intros HB H10 H0.
  assert (F64.nu_mon_gt10deg o = Z.of_nat (F64.spec_months_above_10 t)) as Hn.
  { rewrite (F64.d_nu_mon_gt10deg _ _ _ _ D). apply f64_sum_int_count. }
  unfold F64.get_classification.
  rewrite (F64.d_koppen_class _ _ _ _ D), (f64_classify_D o _ Hn HB H10 H0).
  split; [reflexivity |].
  unfold F64.spec_dry_letter, F64.continental_letter. f64_dec; reflexivity.
Qed.

Lemma X2_group_D_code_witness :
  exists o,
    F64.__init__
      [F64.int 70; F64.int 70; F64.int 70; F64.div (F64.int 70) (F64.int 3);
       F64.int 30; F64.int 30; F64.int 30; F64.int 30; F64.int 30;
       F64.int 70; F64.int 70; F64.int 70]
      (map F64.int [-5; -5; -5; 12; 12; 12; 12; 12; 12; -5; -5; -5]%Z) false
    = inr o
    /\ ~ F64.lt (F64.prcp_sum o) (F64.prcp_threshold o)
    /\ F64.lt (F64.int 10) (F64.temp_max o)
    /\ F64.le (F64.temp_min o) (F64.int 0)
    /\ F64.get_classification o = "Dfb"%string.
Proof.
  destruct (X2_group_D_code
              [F64.int 70; F64.int 70; F64.int 70;
               F64.div (F64.int 70) (F64.int 3);
               F64.int 30; F64.int 30; F64.int 30; F64.int 30; F64.int 30;
               F64.int 70; F64.int 70; F64.int 70]
              (map F64.int [-5; -5; -5; 12; 12; 12; 12; 12; 12; -5; -5; -5]%Z)
              false eq_refl eq_refl) as [o [E H]].
  exists o. split; [exact E |].
  assert (~ F64.lt (F64.prcp_sum o) (F64.prcp_threshold o)) as HB.
  { vm_compute in E. injection E as <-. q_decide. }
  assert (F64.lt (F64.int 10) (F64.temp_max o)) as H10.
  { vm_compute in E. injection E as <-. q_decide. }
  assert (F64.le (F64.temp_min o) (F64.int 0)) as H0.
  { vm_compute in E. injection E as <-. q_decide. }
  split; [exact HB | split; [exact H10 | split; [exact H0 |]]].
  rewrite (proj1 (H HB H10 H0)).
  vm_compute in E. injection E as <-. vm_compute. reflexivity.
Defined.

(** ** The threshold in the two hemispheres *)

(** X8. For the same twelve-month arrays, the southern object has the mean
    temperature and the annual sum of the northern one, and its seasonal
    arrays are the northern ones exchanged.  So its threshold follows the rule
    with the two northern seasonal sums in each other's place:
    [20 * temp_mean] when the April-September sum is above [0.7 * prcp_sum],
    else [20 * temp_mean + 280] when the October-March sum is, else
    [20 * temp_mean + 140]. *)
Theorem X8_threshold_hemispheres (p t : list F64.float) :
  List.length p = 12%nat -> List.length t = 12%nat ->
  exists oN oS,
    F64.__init__ p t false = inr oN /\ F64.__init__ p t true = inr oS
    /\ F64.temp_mean oS = F64.temp_mean oN
    /\ F64.prcp_sum oS = F64.prcp_sum oN
    /\ F64.prcp_winter oS = F64.prcp_summer oN
    /\ F64.prcp_summer oS = F64.prcp_winter oN
    /\ (F64.lt (F64.mul (F64.dec 7 1) (F64.prcp_sum oN))
               (F64.np.sum (F64.prcp_summer oN)) ->
        F64.prcp_threshold oS = F64.mul (F64.int 20) (F64.temp_mean oN))
    /\ (~ F64.lt (F64.mul (F64.dec 7 1) (F64.prcp_sum oN))
                 (F64.np.sum (F64.prcp_summer oN)) ->
        F64.lt (F64.mul (F64.dec 7 1) (F64.prcp_sum oN))
               (F64.np.sum (F64.prcp_winter oN)) ->
        F64.prcp_threshold oS
        = F64.add (F64.mul (F64.int 20) (F64.temp_mean oN)) (F64.int 280))
    /\ (~ F64.lt (F64.mul (F64.dec 7 1) (F64.prcp_sum oN))
                 (F64.np.sum (F64.prcp_summer oN)) ->
        ~ F64.lt (F64.mul (F64.dec 7 1) (F64.prcp_sum oN))
                 (F64.np.sum (F64.prcp_winter oN)) ->
        F64.prcp_threshold oS
        = F64.add (F64.mul (F64.int 20) (F64.temp_mean oN)) (F64.int 140)).
Proof.
  intros Hp Ht.
  destruct (f64_init_total p t false Hp Ht) as [oN [HN DN]].
  destruct (f64_init_total p t true Hp Ht) as [oS [HS DS]].
  exists oN, oS. split; [exact HN | split; [exact HS |]].
  assert (F64.temp_mean oS = F64.temp_mean oN) as Em.
  { rewrite (F64.d_temp_mean _ _ _ _ DN), (F64.d_temp_mean _ _ _ _ DS).
    reflexivity. }
  assert (F64.prcp_sum oS = F64.prcp_sum oN) as Es.
  { rewrite (F64.d_prcp_sum _ _ _ _ DN), (F64.d_prcp_sum _ _ _ _ DS).
    reflexivity. }
  assert (F64.prcp_winter oS = F64.prcp_summer oN) as Ew.
  { pose proof (F64.d_prcp_winter _ _ _ _ DS) as A.
    pose proof (F64.d_prcp_summer _ _ _ _ DN) as B.
    change (winter (select_mon_ind true))
      with (summer (select_mon_ind false)) in A. congruence. }
  assert (F64.prcp_summer oS = F64.prcp_winter oN) as Eu.
  { pose proof (F64.d_prcp_summer _ _ _ _ DS) as A.
    pose proof (F64.d_prcp_winter _ _ _ _ DN) as B.
    change (summer (select_mon_ind true))
      with (winter (select_mon_ind false)) in A. congruence. }
  split; [exact Em | split; [exact Es | split; [exact Ew | split; [exact Eu |]]]].
  rewrite (F64.d_prcp_threshold _ _ _ _ DS).
  unfold F64.calculate_precip_threshold. rewrite Ew, Eu, Es, Em.
  repeat split; intros; f64_tree.
Qed.

(** A wet winter in the north: the threshold is [20 * temp_mean] there and
    [20 * temp_mean + 280] in the south.  Both are rounded, and their sum is
    not [40 * temp_mean + 280]. *)
Lemma X8_threshold_hemispheres_witness :
  exists oN oS,
    F64.__init__ (map F64.int [90; 90; 90; 10; 10; 10; 10; 10; 10; 90; 90; 90]%Z)
                 (map F64.int [1; 0; 0; 0; 0; 0; 0; 0; 0; 0; 0; 0]%Z) false
    = inr oN
    /\ F64.__init__
         (map F64.int [90; 90; 90; 10; 10; 10; 10; 10; 10; 90; 90; 90]%Z)
         (map F64.int [1; 0; 0; 0; 0; 0; 0; 0; 0; 0; 0; 0]%Z) true
       = inr oS
    /\ ~ F64.lt (F64.mul (F64.dec 7 1) (F64.prcp_sum oN))
                (F64.np.sum (F64.prcp_summer oN))
    /\ F64.lt (F64.mul (F64.dec 7 1) (F64.prcp_sum oN))
              (F64.np.sum (F64.prcp_winter oN))
    /\ F64.prcp_threshold oS
       = F64.add (F64.mul (F64.int 20) (F64.temp_mean oN)) (F64.int 280)
    /\ F64.num_eq (F64.prcp_threshold oN) (F64.dec 16666666666666665 16)
    /\ F64.num_eq (F64.prcp_threshold oS) (F64.dec 2816666666666667 13)
    /\ SFeqb (F64.add (F64.prcp_threshold oN) (F64.prcp_threshold oS))
             (F64.add (F64.mul (F64.int 40) (F64.temp_mean oN)) (F64.int 280))
       = false.
Proof.
  destruct (X8_threshold_hemispheres
              (map F64.int [90; 90; 90; 10; 10; 10; 10; 10; 10; 90; 90; 90]%Z)
              (map F64.int [1; 0; 0; 0; 0; 0; 0; 0; 0; 0; 0; 0]%Z)
              eq_refl eq_refl)
    as [oN [oS (EN & ES & _ & _ & _ & _ & _ & H & _)]].
  exists oN, oS. split; [exact EN | split; [exact ES |]].
  assert (~ F64.lt (F64.mul (F64.dec 7 1) (F64.prcp_sum oN))
            (F64.np.sum (F64.prcp_summer oN))) as H1.
  { vm_compute in EN. injection EN as <-. q_decide. }
  assert (F64.lt (F64.mul (F64.dec 7 1) (F64.prcp_sum oN))
            (F64.np.sum (F64.prcp_winter oN))) as H2.
  { vm_compute in EN. injection EN as <-. q_decide. }
  split; [exact H1 | split; [exact H2 | split; [exact (H H1 H2) |]]].
  vm_compute in EN. injection EN as <-.
  vm_compute in ES. injection ES as <-.
  repeat split; q_decide.
Defined.

(** ** Minimum and maximum of an array without NaN *)









(** ** The summary, as the program builds it *)

Lemma same_of_eqb (x y : spec_float) : SFeqb x y = true -> F64.same x y.
Proof. apply eqb_cases. Qed.

Lemma compare_same (x x' y y' : spec_float) :
  F64.same x x' -> F64.same y y' -> SFcompare x y = SFcompare x' y'.
Proof.
  intros [-> | (s1 & s1' & -> & ->)] [-> | (s2 & s2' & -> & ->)];
    try reflexivity;
    first [apply compare_zero_r | apply compare_zero_l].
Qed.

Lemma same_div (c x x' : spec_float) :
  (exists s m e, c = S754_finite s m e) ->
  F64.same x x' -> F64.same (F64.div x c) (F64.div x' c).
Proof.
  intros (s & m & e & ->) [-> | (s1 & s1' & -> & ->)].
  - left. reflexivity.
  - right. simpl. eauto.
Qed.

Lemma same_sub (c y y' : spec_float) :
  (exists s m e, c = S754_finite s m e) ->
  F64.same y y' -> F64.same (F64.sub c y) (F64.sub c y').
Proof.
  intros (s & m & e & ->) [-> | (s1 & s1' & -> & ->)].
  - left. reflexivity.
  - left. reflexivity.
Qed.

Ltac int_finite := do 3 eexists; vm_compute; reflexivity.

Ltac same_tac :=
  first
    [ assumption
    | left; reflexivity
    | apply same_div; [int_finite | same_tac]
    | apply same_sub; [int_finite | same_tac] ].

(** Replace every comparison on the statistics of [a] by the same comparison
    on those of [b]. *)
Ltac f64_move_conditions a b :=
  repeat match goal with
    | |- context [SFltb ?x ?y] =>
        let fx := eval pattern a in x in
        let fy := eval pattern a in y in
        lazymatch fx with
        | ?gx _ =>
            lazymatch fy with
            | ?gy _ =>
                let x' := eval cbv beta in (gx b) in
                let y' := eval cbv beta in (gy b) in
                progress
                  (replace (SFltb x y) with (SFltb x' y')
                    by (unfold SFltb; rewrite (compare_same x x' y y');
                        [reflexivity | same_tac | same_tac]))
            end
        end
    | |- context [SFleb ?x ?y] =>
        let fx := eval pattern a in x in
        let fy := eval pattern a in y in
        lazymatch fx with
        | ?gx _ =>
            lazymatch fy with
            | ?gy _ =>
                let x' := eval cbv beta in (gx b) in
                let y' := eval cbv beta in (gy b) in
                progress
                  (replace (SFleb x y) with (SFleb x' y')
                    by (unfold SFleb; rewrite (compare_same x x' y y');
                        [reflexivity | same_tac | same_tac]))
            end
        end
    end.

(** [classify] reads its statistics through comparisons only, after a
    division by a constant at most. *)
Lemma f64_classify_same (a b : F64.Self) :
  F64.same (F64.prcp_sum a) (F64.prcp_sum b) ->
  F64.same (F64.prcp_threshold a) (F64.prcp_threshold b) ->
  F64.same (F64.temp_mean a) (F64.temp_mean b) ->
  F64.same (F64.temp_min a) (F64.temp_min b) ->
  F64.same (F64.temp_max a) (F64.temp_max b) ->
  F64.same (F64.prcp_min a) (F64.prcp_min b) ->
  F64.same (F64.prcp_summer_min a) (F64.prcp_summer_min b) ->
  F64.same (F64.prcp_summer_max a) (F64.prcp_summer_max b) ->
  F64.same (F64.prcp_winter_min a) (F64.prcp_winter_min b) ->
  F64.same (F64.prcp_winter_max a) (F64.prcp_winter_max b) ->
  F64.nu_mon_gt10deg a = F64.nu_mon_gt10deg b ->
  F64.classify a = F64.classify b.
Proof.
  intros E1 E2 E3 E4 E5 E6 E7 E8 E9 E10 E11. unfold F64.classify.
  rewrite E11. f64_move_conditions a b. reflexivity.
Qed.

Lemma same_value_float (a b : F64.Self) (key : string) (x y : F64.float) :
  F64.dict_get (F64.summary a) key = Some (F64.Float x) ->
  F64.dict_get (F64.summary b) key = Some (F64.Float y) ->
  F64.same_value (F64.summary a) (F64.summary b) key ->
  F64.same x y.
Proof.
  unfold F64.same_value. intros -> ->. simpl. apply eqb_cases.
Qed.

(** X12. The summary holds everything the code depends on: when the summaries
    of two built objects hold numerically equal values under every key,
    [get_classification] returns the same code for both, without [writeout]
    and, beside each object's own summary, with it. *)
Theorem X12_summary_decides (p1 t1 p2 t2 : list F64.float) (s1 s2 : bool)
  (o1 o2 : F64.KoppenClassification) :
  F64.__init__ p1 t1 s1 = inr o1 -> F64.__init__ p2 t2 s2 = inr o2 ->
  (forall key, F64.same_value (F64.summary o1) (F64.summary o2) key) ->
  F64.get_classification_writeout o1 false
  = F64.get_classification_writeout o2 false
  /\ exists code,
      F64.get_classification_writeout o1 true = inr (code, F64.summary o1)
      /\ F64.get_classification_writeout o2 true = inr (code, F64.summary o2).
Proof.
  intros H1 H2 K.
  apply f64_init_inr in H1. apply f64_init_inr in H2.
  assert (F64.koppen_class o1 = F64.koppen_class o2) as Hc.
  { rewrite (F64.d_koppen_class _ _ _ _ H1), (F64.d_koppen_class _ _ _ _ H2).
    apply f64_classify_same.
    - apply (same_value_float o1 o2 "annual accum rain");
        [reflexivity | reflexivity | apply K].
    - apply (same_value_float o1 o2 "precip threshold");
        [reflexivity | reflexivity | apply K].
    - apply (same_value_float o1 o2 "mean temperature");
        [reflexivity | reflexivity | apply K].
    - apply (same_value_float o1 o2 "min temperature");
        [reflexivity | reflexivity | apply K].
    - apply (same_value_float o1 o2 "max temperature");
        [reflexivity | reflexivity | apply K].
    - apply (same_value_float o1 o2 "minimum monthly rain");
        [reflexivity | reflexivity | apply K].
    - apply (same_value_float o1 o2 "minimum summer precip");
        [reflexivity | reflexivity | apply K].
    - apply (same_value_float o1 o2 "maximum summer precip");
        [reflexivity | reflexivity | apply K].
    - apply (same_value_float o1 o2 "minimum winter rain");
        [reflexivity | reflexivity | apply K].
    - apply (same_value_float o1 o2 "maximum winter rain");
        [reflexivity | reflexivity | apply K].
    - pose proof (K "num of months hotter than 10 deg"%string) as N.
      unfold F64.same_value in N. simpl in N. apply Z.eqb_eq in N. exact N. }
  unfold F64.get_classification_writeout. rewrite Hc.
  split; [reflexivity | eauto].
Qed.

Lemma same_value_items (d1 d2 : list (string * F64.number)) :
  Forall2 (fun kv kv' => fst kv = fst kv'
                         /\ F64.number_eqb (snd kv) (snd kv') = true) d1 d2 ->
  forall key, F64.same_value d1 d2 key.
Proof.
  intros H key. unfold F64.same_value.
  induction H as [| [k v] [k' v'] d1 d2 [Hk Hv] _ IH]; simpl; [exact I |].
  simpl in Hk, Hv. subst k'.
  destruct (String.eqb k key); [exact Hv | exact IH].
Qed.

(** Twelve dry months, written as 0.0 in one record and as -0.0 in the other:
    the two summaries differ in the sign of a zero, which [==] does not see,
    and the code is the same. *)
Lemma X12_summary_decides_witness :
  exists o1 o2,
    F64.__init__
      (repeat (S754_zero false) 12)
      (map F64.int [10; 12; 15; 18; 20; 25; 30; 28; 22; 15; 12; 8]%Z) false
    = inr o1
    /\ F64.__init__
         (repeat (S754_zero true) 12)
         (map F64.int [10; 12; 15; 18; 20; 25; 30; 28; 22; 15; 12; 8]%Z) false
       = inr o2
    /\ F64.summary o1 <> F64.summary o2
    /\ (forall key, F64.same_value (F64.summary o1) (F64.summary o2) key)
    /\ F64.get_classification_writeout o1 false = inl "BWk"%string
    /\ F64.get_classification_writeout o2 false = inl "BWk"%string.
Proof.
  destruct (f64_init_total
              (repeat (S754_zero false) 12)
              (map F64.int [10; 12; 15; 18; 20; 25; 30; 28; 22; 15; 12; 8]%Z)
              false eq_refl eq_refl) as [o1 [E1 _]].
  destruct (f64_init_total
              (repeat (S754_zero true) 12)
              (map F64.int [10; 12; 15; 18; 20; 25; 30; 28; 22; 15; 12; 8]%Z)
              false eq_refl eq_refl) as [o2 [E2 _]].
  exists o1, o2. split; [exact E1 | split; [exact E2 |]].
  split.
  { vm_compute in E1. injection E1 as <-.
    vm_compute in E2. injection E2 as <-. vm_compute. discriminate. }
  assert (forall key, F64.same_value (F64.summary o1) (F64.summary o2) key)
    as K.
  { apply same_value_items.
    vm_compute in E1. injection E1 as <-.
    vm_compute in E2. injection E2 as <-.
    repeat constructor. }
  split; [exact K |].
  assert (F64.get_classification_writeout o1 false = inl "BWk"%string) as C.
  { vm_compute in E1. injection E1 as <-. reflexivity. }
  split; [exact C |].
  rewrite <- (proj1 (X12_summary_decides _ _ _ _ _ _ _ _ E1 E2 K)). exact C.
Defined.
